(** * Webhook receiver: ingestion, live fan-out and notification routing

    A shallow embedding of [index.js] (the Express / Socket.IO / MongoDB
    server) and the properties of its ingestion-and-fan-out engine.

    The server is a single-threaded event loop: a handler runs without
    interruption until its next [await], where other handlers may run.
    Every handler is therefore embedded as a small state machine ([Task])
    whose transitions are the pieces of code between two [await]s; the
    handler run on its own ([handle]) is the composition of its
    transitions, and the concurrent server ([world_step]) interleaves the
    transitions of all pending handlers.

    Embedded: [POST /new], [DELETE /endpoints/:id], the webhook receiver
    [ALL /:id], the socket event [join], the three preference writers
    under [/api/notifications] and [sendWebhookNotification].  The
    remaining routes ([/auth/google], [GET /endpoints],
    [/api/notifications/status], [/api/verify-token]) only read. *)

From Stdlib Require Import ZArith.
From stdpp Require Import gmap strings list sorting.

(** ** JavaScript idioms used by the handlers *)

Module Js.

(** Truthiness of a possibly-undefined string: [undefined] and [""] are
    falsy. *)
Definition truthy (s : option string) : bool :=
  match s with
  | Some s => negb (String.eqb s "")
  | None => false
  end.

(** [a || b] on possibly-undefined strings. *)
Definition or_else (a b : option string) : option string :=
  if truthy a then a else b.

(** [a || b] where [b] is a string. *)
Definition or_default (a : option string) (b : string) : string :=
  match a with
  | Some s => if String.eqb s "" then b else s
  | None => b
  end.

(** [s.includes(sub)] *)
Fixpoint includes (s sub : string) : bool :=
  String.prefix sub s ||
  match s with
  | EmptyString => false
  | String _ s' => includes s' sub
  end.

Fixpoint trimStart (s : string) : string :=
  match s with
  | EmptyString => EmptyString
  | String c s' => if Ascii.is_space c then trimStart s' else s
  end.

(** [s.trim()] *)
Definition trim (s : string) : string :=
  String.rev (trimStart (String.rev (trimStart s))).

End Js.

(** ** Data model *)

(** MongoDB [ObjectId]s.  The driver hands back [result.insertedId]; the
    identifier generator is outside the repository and is represented by
    the counter [nextObjectId] of the store. *)
Definition ObjectId := nat.
Definition SocketId := nat.
(** [Date] values, as milliseconds since the epoch. *)
Definition Timestamp := Z.

Definition Multimap := list (string * string).

(** A document of the [endpoints] collection; its [_id] is the key under
    which the collection stores it. *)
Record Endpoint := {
  name : option string;
  createdAt : Timestamp;
  createdBy : option string
}.

(** The Express request object, as far as the handlers read it. *)
Record HttpRequest := {
  method : string;
  headers : Multimap;
  body : string;
  query : Multimap;
  protocol : string;
  host : string
}.

(** The object [data] built by the webhook handler. *)
Record RequestData := {
  endpointId : string;
  d_method : string;
  d_headers : Multimap;
  d_body : string;
  d_query : Multimap;
  timestamp : Timestamp
}.

(** A document of the [requests] collection. *)
Record StoredRequest := {
  _id : ObjectId;
  data : RequestData
}.

(** The record shape sent to sockets ([_id.toString()] and
    [timestamp.toISOString()] are injective renderings; the rendered
    values are kept). *)
Record FormattedRequest := {
  f_id : ObjectId;
  f_method : string;
  f_headers : Multimap;
  f_body : string;
  f_query : Multimap;
  f_timestamp : Timestamp
}.

(** A document of the [userSettings] collection.  [$set] of a field that
    was never written leaves the other one undefined. *)
Record UserSetting := {
  userId : string;
  emailNotifications : option bool;
  notificationEmail : option string
}.

(** The verified token payload [req.user]. *)
Record User := {
  sub : string;
  email : option string
}.

Inductive AuthResult :=
| Authenticated (user : User)
| Rejected (message : string).

Global Instance Endpoint_eq_dec : EqDecision Endpoint.
Proof. solve_decision. Defined.
Global Instance RequestData_eq_dec : EqDecision RequestData.
Proof. solve_decision. Defined.
Global Instance StoredRequest_eq_dec : EqDecision StoredRequest.
Proof. solve_decision. Defined.
Global Instance FormattedRequest_eq_dec : EqDecision FormattedRequest.
Proof. solve_decision. Defined.
Global Instance UserSetting_eq_dec : EqDecision UserSetting.
Proof. solve_decision. Defined.

(** ** The store *)

Record Db := {
  endpointsCollection : gmap string Endpoint;
  requestsCollection : list StoredRequest;
  userSettings : list UserSetting;
  nextObjectId : ObjectId
}.

Module Mongo.

(** [collection.findOne(filter)]: the first matching document. *)
Definition findOne {A} (P : A → bool) (l : list A) : option A :=
  List.find P l.

(** [collection.deleteMany(filter)] *)
Definition deleteMany {A} (P : A → bool) (l : list A) : list A :=
  List.filter (λ d, negb (P d)) l.

(** [collection.updateOne({ userId: k }, { $set }, { upsert: true })] on
    [userSettings]: the first document keyed by [k] is updated; when
    there is none a document made of the filter and the [$set] is
    inserted. *)
Fixpoint upsert (k : string) (set : UserSetting → UserSetting)
    (l : list UserSetting) : list UserSetting :=
  match l with
  | [] => [set {| userId := k; emailNotifications := None;
                  notificationEmail := None |}]
  | d :: l' =>
      if String.eqb (userId d) k then set d :: l'
      else d :: upsert k set l'
  end.

(** The sort of [find(..).sort({ timestamp: -1 })]: newest first.  The
    store does not say in which order it returns documents of equal
    timestamp; the properties below use only that the result is a sorted
    rearrangement. *)
Definition newer_first (r1 r2 : StoredRequest) : Prop :=
  (timestamp (data r2) ≤ timestamp (data r1))%Z.

Global Instance newer_first_dec : RelDecision newer_first.
Proof. intros r1 r2. unfold newer_first. apply _. Defined.

Definition sort_timestamp_desc (l : list StoredRequest) : list StoredRequest :=
  merge_sort newer_first l.

(** The filter [{ endpointId }] on [requests]. *)
Definition on_endpoint (id : string) (r : StoredRequest) : bool :=
  String.eqb (endpointId (data r)) id.

(** [requestsCollection.find({ endpointId }).sort({ timestamp: -1 })
      .limit(100).toArray()] *)
Definition recent (id : string) (l : list StoredRequest) : list StoredRequest :=
  take 100 (sort_timestamp_desc (List.filter (on_endpoint id) l)).

End Mongo.

(** [$set] documents of the preference handlers. *)
Definition set_enabled (notif : option string) (d : UserSetting) : UserSetting :=
  {| userId := userId d; emailNotifications := Some true;
     notificationEmail := notif |}.

Definition set_disabled (d : UserSetting) : UserSetting :=
  {| userId := userId d; emailNotifications := Some false;
     notificationEmail := notificationEmail d |}.

Definition set_notificationEmail (e : string) (d : UserSetting) : UserSetting :=
  {| userId := userId d; emailNotifications := emailNotifications d;
     notificationEmail := Some e |}.

(** ** What the server does to the outside *)

Inductive JsonBody :=
| json_error (error : string)
| json_success
| json_success_email (email : string)
| json_created (url id : string) (name : option string).

Inductive Response :=
| send (status : nat) (text : string)
| json (status : nat) (payload : JsonBody)
| redirect_highlight (requestId : ObjectId).

Inductive SocketEvent :=
| error (message : string)
| init_requests (formattedRequests : list FormattedRequest)
| new_request (request : FormattedRequest).

(** The object handed to [transporter.sendMail].  The HTML body is
    represented by the values interpolated into its template; the
    sender address [from] comes from the environment and is left out. *)
Record MailOptions := {
  to : string;
  subject : string;
  m_endpointName : string;
  m_endpointId : string;
  m_endpointUrl : string;
  formattedData : RequestData
}.

(** The history of a run, oldest first: responses, socket emissions and
    mail, and the operations on the store and on the rooms that the
    properties below refer to. *)
Inductive Effect :=
| Respond (conn : nat) (res : Response)
| SocketEmit (socket : SocketId) (ev : SocketEvent)
| RoomEmit (room : string) (members : gset SocketId) (ev : SocketEvent)
| SendMail (mailOptions : MailOptions) (delivered : bool)
| Inserted (r : StoredRequest)
| DeletedRequests (endpointId : string)
| JoinedRoom (socket : SocketId) (room : string)
| SnapshotRead (socket : SocketId) (endpointId : string)
    (recentRequests : list StoredRequest).

Record Server := {
  db : Db;
  rooms : gmap string (gset SocketId);
  (** [transporter] is non-null: the mail environment was configured *)
  transporter : bool;
  (** [process.env.BASE_URL] *)
  BASE_URL : option string;
  trace : list Effect
}.

(** What the surroundings decide at one transition: the clock read by
    [new Date()], whether the awaited store operation succeeds, and
    whether [sendMail] does. *)
Record Env := {
  now : Timestamp;
  dbOk : bool;
  mailOk : bool
}.

Definition room (σ : Server) (id : string) : gset SocketId :=
  default ∅ (rooms σ !! id).

Definition with_db (f : Db → Db) (σ : Server) : Server :=
  {| db := f (db σ); rooms := rooms σ; transporter := transporter σ;
     BASE_URL := BASE_URL σ; trace := trace σ |}.

Definition log (x : Effect) (σ : Server) : Server :=
  {| db := db σ; rooms := rooms σ; transporter := transporter σ;
     BASE_URL := BASE_URL σ; trace := trace σ ++ [x] |}.

(** [socket.join(id)] *)
Definition socket_join (s : SocketId) (id : string) (σ : Server) : Server :=
  {| db := db σ; rooms := <[id := {[s]} ∪ room σ id]> (rooms σ);
     transporter := transporter σ; BASE_URL := BASE_URL σ;
     trace := trace σ ++ [JoinedRoom s id] |}.

Definition set_endpoints (m : gmap string Endpoint) (d : Db) : Db :=
  {| endpointsCollection := m; requestsCollection := requestsCollection d;
     userSettings := userSettings d; nextObjectId := nextObjectId d |}.

Definition set_requests (l : list StoredRequest) (d : Db) : Db :=
  {| endpointsCollection := endpointsCollection d; requestsCollection := l;
     userSettings := userSettings d; nextObjectId := nextObjectId d |}.

Definition set_userSettings (l : list UserSetting) (d : Db) : Db :=
  {| endpointsCollection := endpointsCollection d;
     requestsCollection := requestsCollection d;
     userSettings := l; nextObjectId := nextObjectId d |}.

(** [requestsCollection.insertOne(data)]: the document is appended under
    a fresh identifier. *)
Definition insertOne_request (data : RequestData) (d : Db) : Db :=
  {| endpointsCollection := endpointsCollection d;
     requestsCollection :=
       requestsCollection d ++ [{| _id := nextObjectId d; data := data |}];
     userSettings := userSettings d;
     nextObjectId := S (nextObjectId d) |}.

Definition format (r : StoredRequest) : FormattedRequest :=
  {| f_id := _id r;
     f_method := d_method (data r);
     f_headers := d_headers (data r);
     f_body := d_body (data r);
     f_query := d_query (data r);
     f_timestamp := timestamp (data r) |}.

(** [req.headers[key]] *)
Definition header (key : string) (h : Multimap) : option string :=
  snd <$> List.find (λ kv, String.eqb (fst kv) key) h.

Definition quote : string := String (Ascii.ascii_of_nat 34) EmptyString.

(** ** Handlers as state machines *)

Record NotifyArgs := {
  creatorEmail : string;
  n_endpointId : string;
  requestData : RequestData;
  n_req : option HttpRequest
}.

(** A suspended handler: the [await] it is blocked on, with the variables
    its continuation reads. *)
Inductive Task :=
(* app.post('/new') *)
| New_insertOne (conn : nat) (req_protocol req_host id : string) (doc : Endpoint)
(* app.delete('/endpoints/:id') *)
| Delete_deleteOne (conn : nat) (endpointId : string)
| Delete_deleteMany (conn : nat) (endpointId : string)
(* app.all('/:id') *)
| Webhook_findOne (conn : nat) (id : string) (req : HttpRequest)
| Webhook_found (conn : nat) (id : string) (req : HttpRequest)
    (endpointExists : option Endpoint)
| Webhook_insertOne (conn : nat) (id : string) (req : HttpRequest)
    (endpointExists : Endpoint) (data : RequestData)
| Webhook_inserted (conn : nat) (id : string) (req : HttpRequest)
    (endpointExists : Endpoint) (data : RequestData) (requestId : ObjectId)
(* socket.on('join') *)
| Join_findOne (socket : SocketId) (endpointId : string)
| Join_found (socket : SocketId) (endpointId : string)
    (endpointExists : option Endpoint)
| Join_find (socket : SocketId) (endpointId : string)
| Join_emit (socket : SocketId) (endpointId : string)
    (recentRequests : list StoredRequest)
(* app.post('/api/notifications/enable') *)
| Enable_sub (conn : nat) (user : User) (notificationEmail : option string)
| Enable_email (conn : nat) (user : User) (notificationEmail : option string)
(* app.post('/api/notifications/disable') *)
| Disable_sub (conn : nat) (user : User)
| Disable_email (conn : nat) (user : User)
(* app.post('/api/notifications/email') *)
| SetEmail_deleteMany (conn : nat) (user : User) (email : string)
| SetEmail_sub (conn : nat) (user : User) (email : string)
| SetEmail_email (conn : nat) (user : User) (email : string)
(* sendWebhookNotification *)
| Notify_byGoogleUserId (a : NotifyArgs) (googleUserId : string)
| Notify_byNotificationEmail (a : NotifyArgs)
| Notify_byCreatorEmail (a : NotifyArgs)
| Notify_endpoint (a : NotifyArgs) (notificationEmail : string)
| Notify_sendMail (mailOptions : MailOptions).

(** What arrives at the server. *)
Inductive Incoming :=
| POST_new (conn : nat) (auth : AuthResult) (req_protocol req_host : string)
    (name : option string) (uuid : string)
| DELETE_endpoint (conn : nat) (auth : AuthResult) (id : string)
| ALL_webhook (conn : nat) (id : string) (req : HttpRequest)
| ON_join (socket : SocketId) (endpointId : string)
| POST_enable (conn : nat) (auth : AuthResult) (email : option string)
| POST_disable (conn : nat) (auth : AuthResult)
| POST_email (conn : nat) (auth : AuthResult) (email : option string).

Definition respond (conn : nat) (res : Response) (σ : Server)
    : Server * list Task :=
  (log (Respond conn res) σ, []).

Definition socket_emit (s : SocketId) (ev : SocketEvent) (σ : Server)
    : Server * list Task :=
  (log (SocketEmit s ev) σ, []).

(** The first [await] of [sendWebhookNotification]. *)
Definition sendWebhookNotification (a : NotifyArgs)
    (googleUserId : option string) : Task :=
  match googleUserId with
  | Some g => if String.eqb g "" then Notify_byNotificationEmail a
              else Notify_byGoogleUserId a g
  | None => Notify_byNotificationEmail a
  end.

(** [sendWebhookNotification] once [userSettings] is settled: the
    [emailNotifications] guard and the choice of the address. *)
Definition notify_settled (a : NotifyArgs) (us : option UserSetting)
    : list Task :=
  match us with
  | Some u =>
      match emailNotifications u with
      | Some true =>
          [Notify_endpoint a
             (Js.or_default (notificationEmail u) (creatorEmail a))]
      | _ => []
      end
  | None => []
  end.

Definition by_userId (k : string) (u : UserSetting) : bool :=
  String.eqb (userId u) k.

Definition by_notificationEmail (k : string) (u : UserSetting) : bool :=
  bool_decide (notificationEmail u = Some k).

(** The filter of the clean-up in [/api/notifications/email]:
    [{ userId: { $in: [sub, email].filter(Boolean) },
       notificationEmail: { $ne: email } }]. *)
Definition stale (user : User) (e : string) (u : UserSetting) : bool :=
  ((negb (String.eqb (sub user) "") && String.eqb (userId u) (sub user))
   || (Js.truthy (email user) && bool_decide (Some (userId u) = email user)))
  && negb (bool_decide (notificationEmail u = Some e)).

(** [req.user.email && req.user.email !== req.user.sub] *)
Definition has_work_email (user : User) : bool :=
  Js.truthy (email user) && negb (bool_decide (email user = Some (sub user))).

Definition mail (σ : Server) (a : NotifyArgs) (notificationEmail : string)
    : MailOptions :=
  let endpoint := endpointsCollection (db σ) !! n_endpointId a in
  let endpointName :=
    Js.or_default (endpoint ≫= name) (n_endpointId a) in
  let hostUrl :=
    match n_req a with
    | Some req => protocol req +:+ "://" +:+ host req
    | None => Js.or_default (BASE_URL σ) "http://localhost:3000"
    end in
  let endpointUrl := hostUrl +:+ "/" +:+ n_endpointId a in
  {| to := notificationEmail;
     subject := "New Webhook Received on " +:+ quote +:+ endpointName +:+ quote;
     m_endpointName := endpointName;
     m_endpointId := n_endpointId a;
     m_endpointUrl := endpointUrl;
     formattedData := requestData a |}.

(** The synchronous start of a handler, up to its first [await] on the
    store.  Token verification is outside the repository: its outcome
    arrives with the request. *)
Definition spawn (e : Env) (i : Incoming) (σ : Server) : Server * list Task :=
  match i with
  | POST_new conn auth req_protocol req_host nm uuid =>
      match auth with
      | Rejected msg => respond conn (send 401 msg) σ
      | Authenticated user =>
          (σ, [New_insertOne conn req_protocol req_host uuid
                 {| name := match nm with
                            | Some n => if String.eqb n "" then None
                                        else Some (Js.trim n)
                            | None => None
                            end;
                    createdAt := now e;
                    createdBy := email user |}])
      end
  | DELETE_endpoint conn auth id =>
      match auth with
      | Rejected msg => respond conn (send 401 msg) σ
      | Authenticated _ => (σ, [Delete_deleteOne conn id])
      end
  | ALL_webhook conn id req => (σ, [Webhook_findOne conn id req])
  | ON_join s id => (σ, [Join_findOne s id])
  | POST_enable conn auth em =>
      match auth with
      | Rejected msg => respond conn (send 401 msg) σ
      | Authenticated user =>
          (σ, [Enable_sub conn user (Js.or_else em (email user))])
      end
  | POST_disable conn auth =>
      match auth with
      | Rejected msg => respond conn (send 401 msg) σ
      | Authenticated user => (σ, [Disable_sub conn user])
      end
  | POST_email conn auth em =>
      match auth with
      | Rejected msg => respond conn (send 401 msg) σ
      | Authenticated user =>
          match em with
          | Some addr =>
              if negb (String.eqb addr "") && Js.includes addr "@"
              then (σ, [SetEmail_deleteMany conn user addr])
              else respond conn (json 400 (json_error "Invalid email address")) σ
          | None =>
              respond conn (json 400 (json_error "Invalid email address")) σ
          end
      end
  end.

(** The answer to an ingested request: browsers are sent to the web
    application, every other client gets the acknowledgement. *)
Definition acknowledge (req : HttpRequest) (requestId : ObjectId) : Response :=
  let userAgent := Js.or_default (header "user-agent" (headers req)) "" in
  if String.eqb (method req) "GET" && Js.includes userAgent "Mozilla"
  then redirect_highlight requestId
  else send 200 "Received".

(** One transition of a suspended handler: the awaited operation takes
    place and the continuation runs up to the next [await].  Where the
    continuation touches the rooms or emits to sockets (the webhook and
    join handlers) the store operation and the continuation are two
    transitions, so that other handlers can run in between. *)
Definition resume (e : Env) (t : Task) (σ : Server) : Server * list Task :=
  match t with
  (* app.post('/new') *)
  | New_insertOne conn req_protocol req_host id doc =>
      if dbOk e && bool_decide (endpointsCollection (db σ) !! id = None)
      then respond conn
             (json 200 (json_created
                          (req_protocol +:+ "://" +:+ req_host +:+ "/" +:+ id)
                          id (name doc)))
             (with_db (λ d, set_endpoints (<[id := doc]> (endpointsCollection d)) d) σ)
      else respond conn (json 500 (json_error "Failed to create endpoint.")) σ
  (* app.delete('/endpoints/:id') *)
  | Delete_deleteOne conn id =>
      if dbOk e
      then (with_db (λ d, set_endpoints (delete id (endpointsCollection d)) d) σ,
            [Delete_deleteMany conn id])
      else respond conn (json 500 (json_error "Failed to delete endpoint.")) σ
  | Delete_deleteMany conn id =>
      if dbOk e
      then respond conn (json 200 json_success)
             (log (DeletedRequests id)
                (with_db (λ d, set_requests
                            (Mongo.deleteMany (Mongo.on_endpoint id)
                               (requestsCollection d)) d) σ))
      else respond conn (json 500 (json_error "Failed to delete endpoint.")) σ
  (* app.all('/:id') *)
  | Webhook_findOne conn id req =>
      if dbOk e
      then (σ, [Webhook_found conn id req (endpointsCollection (db σ) !! id)])
      else respond conn (send 500 "Internal Server Error") σ
  | Webhook_found conn id req endpointExists =>
      match endpointExists with
      | None => respond conn (send 404 "Endpoint not found") σ
      | Some ep =>
          (σ, [Webhook_insertOne conn id req ep
                 {| endpointId := id;
                    d_method := method req;
                    d_headers := headers req;
                    d_body := body req;
                    d_query := query req;
                    timestamp := now e |}])
      end
  | Webhook_insertOne conn id req ep dat =>
      if dbOk e
      then
        let requestId := nextObjectId (db σ) in
        (log (Inserted {| _id := requestId; data := dat |})
           (with_db (insertOne_request dat) σ),
         [Webhook_inserted conn id req ep dat requestId])
      else respond conn (send 500 "Internal Server Error") σ
  | Webhook_inserted conn id req ep dat requestId =>
      let σ1 :=
        log (RoomEmit id (room σ id)
               (new_request (format {| _id := requestId; data := dat |}))) σ in
      let notification :=
        match createdBy ep with
        | Some owner =>
            if String.eqb owner "" then []
            else [sendWebhookNotification
                    {| creatorEmail := owner; n_endpointId := id;
                       requestData := dat; n_req := Some req |} None]
        | None => []
        end in
      (log (Respond conn (acknowledge req requestId)) σ1, notification)
  (* socket.on('join') *)
  | Join_findOne s id =>
      if dbOk e
      then (σ, [Join_found s id (endpointsCollection (db σ) !! id)])
      else socket_emit s (error "Internal server error") σ
  | Join_found s id endpointExists =>
      match endpointExists with
      | None => socket_emit s (error "Endpoint not found") σ
      | Some _ => (socket_join s id σ, [Join_find s id])
      end
  | Join_find s id =>
      if dbOk e
      then
        let recentRequests := Mongo.recent id (requestsCollection (db σ)) in
        (log (SnapshotRead s id recentRequests) σ,
         [Join_emit s id recentRequests])
      else socket_emit s (error "Internal server error") σ
  | Join_emit s id recentRequests =>
      socket_emit s (init_requests (format <$> recentRequests)) σ
  (* app.post('/api/notifications/enable') *)
  | Enable_sub conn user notif =>
      if dbOk e
      then
        let σ1 := with_db (λ d, set_userSettings
                             (Mongo.upsert (sub user) (set_enabled notif)
                                (userSettings d)) d) σ in
        if has_work_email user then (σ1, [Enable_email conn user notif])
        else respond conn (json 200 json_success) σ1
      else respond conn (json 500 (json_error "Failed to enable notifications")) σ
  | Enable_email conn user notif =>
      if dbOk e
      then respond conn (json 200 json_success)
             (with_db (λ d, set_userSettings
                         (Mongo.upsert (default "" (email user))
                            (set_enabled notif) (userSettings d)) d) σ)
      else respond conn (json 500 (json_error "Failed to enable notifications")) σ
  (* app.post('/api/notifications/disable') *)
  | Disable_sub conn user =>
      if dbOk e
      then
        let σ1 := with_db (λ d, set_userSettings
                             (Mongo.upsert (sub user) set_disabled
                                (userSettings d)) d) σ in
        if has_work_email user then (σ1, [Disable_email conn user])
        else respond conn (json 200 json_success) σ1
      else respond conn (json 500 (json_error "Failed to disable notifications")) σ
  | Disable_email conn user =>
      if dbOk e
      then respond conn (json 200 json_success)
             (with_db (λ d, set_userSettings
                         (Mongo.upsert (default "" (email user))
                            set_disabled (userSettings d)) d) σ)
      else respond conn (json 500 (json_error "Failed to disable notifications")) σ
  (* app.post('/api/notifications/email') *)
  | SetEmail_deleteMany conn user addr =>
      if dbOk e
      then (with_db (λ d, set_userSettings
                       (Mongo.deleteMany (stale user addr) (userSettings d)) d) σ,
            [SetEmail_sub conn user addr])
      else respond conn (json 500 (json_error "Failed to save notification email")) σ
  | SetEmail_sub conn user addr =>
      if dbOk e
      then
        let σ1 := with_db (λ d, set_userSettings
                             (Mongo.upsert (sub user) (set_notificationEmail addr)
                                (userSettings d)) d) σ in
        if has_work_email user then (σ1, [SetEmail_email conn user addr])
        else respond conn (json 200 (json_success_email addr)) σ1
      else respond conn (json 500 (json_error "Failed to save notification email")) σ
  | SetEmail_email conn user addr =>
      if dbOk e
      then respond conn (json 200 (json_success_email addr))
             (with_db (λ d, set_userSettings
                         (Mongo.upsert (default "" (email user))
                            (set_notificationEmail addr) (userSettings d)) d) σ)
      else respond conn (json 500 (json_error "Failed to save notification email")) σ
  (* sendWebhookNotification: every failure is caught and swallowed *)
  | Notify_byGoogleUserId a g =>
      if dbOk e
      then
        match Mongo.findOne (by_userId g) (userSettings (db σ)) with
        | Some u => (σ, notify_settled a (Some u))
        | None => (σ, [Notify_byNotificationEmail a])
        end
      else (σ, [])
  | Notify_byNotificationEmail a =>
      if dbOk e
      then
        match Mongo.findOne (by_notificationEmail (creatorEmail a))
                (userSettings (db σ)) with
        | Some u => (σ, notify_settled a (Some u))
        | None => (σ, [Notify_byCreatorEmail a])
        end
      else (σ, [])
  | Notify_byCreatorEmail a =>
      if dbOk e
      then (σ, notify_settled a
                 (Mongo.findOne (by_userId (creatorEmail a))
                    (userSettings (db σ))))
      else (σ, [])
  | Notify_endpoint a notif =>
      if dbOk e
      then if transporter σ then (σ, [Notify_sendMail (mail σ a notif)])
           else (σ, [])
      else (σ, [])
  | Notify_sendMail m =>
      (log (SendMail m (mailOk e)) σ, [])
  end.

(** ** A handler on its own *)

(** Runs the pending transitions to the end, a handler that was just
    started before the ones that were waiting.  [e k] is what the
    surroundings decide at the [k]-th transition ([e 0] at the start of
    the handler). *)
Fixpoint run (fuel k : nat) (e : nat → Env) (ts : list Task) (σ : Server)
    : Server :=
  match fuel, ts with
  | S n, t :: ts' =>
      let '(σ', new) := resume (e k) t σ in run n (S k) e (new ++ ts') σ'
  | _, _ => σ
  end.

(** No handler takes more than four transitions, and the notification it
    may start no more than five. *)
Definition handle (e : nat → Env) (i : Incoming) (σ : Server) : Server :=
  let '(σ', ts) := spawn (e 0) i σ in run 9 1 e ts σ'.

(** [sendWebhookNotification(creatorEmail, endpointId, requestData, req,
    googleUserId)] run to its end. *)
Definition route (e : nat → Env) (a : NotifyArgs)
    (googleUserId : option string) (σ : Server) : Server :=
  run 5 1 e [sendWebhookNotification a googleUserId] σ.

Definition always (x : Env) : nat → Env := λ _, x.

(** ** The server: handlers interleaved at their [await]s *)

Record World := {
  server : Server;
  tasks : list Task
}.




(** The server as it first starts: an empty database, no socket in any
    room, nothing suspended and nothing done yet. *)
Definition started (transporter : bool) (BASE_URL : option string) : World :=
  {| server := {| db := {| endpointsCollection := ∅; requestsCollection := [];
                           userSettings := []; nextObjectId := 0 |};
                  rooms := ∅; transporter := transporter;
                  BASE_URL := BASE_URL; trace := [] |};
     tasks := [] |}.


(** ** Vocabulary of the properties *)


(** The responses in a stretch of history, with their connection. *)
Definition responses (tr : list Effect) : list (nat * Response) :=
  omap (λ x, match x with Respond conn res => Some (conn, res) | _ => None end) tr.


Definition oldest_first (fs : list FormattedRequest) : Prop :=
  StronglySorted (λ a b, (f_timestamp a ≤ f_timestamp b)%Z) fs.

Definition newest_first (fs : list FormattedRequest) : Prop :=
  StronglySorted (λ a b, (f_timestamp b ≤ f_timestamp a)%Z) fs.


(** A transition of [sendWebhookNotification]. *)
Definition is_notify (t : Task) : bool :=
  match t with
  | Notify_byGoogleUserId _ _ | Notify_byNotificationEmail _
  | Notify_byCreatorEmail _ | Notify_endpoint _ _ | Notify_sendMail _ => true
  | _ => false
  end.

Definition is_SendMail (x : Effect) : bool :=
  match x with SendMail _ _ => true | _ => false end.

(** The document the webhook handler builds from a request. *)
Definition captured (id : string) (req : HttpRequest) (t : Timestamp)
    : RequestData :=
  {| endpointId := id; d_method := method req; d_headers := headers req;
     d_body := body req; d_query := query req; timestamp := t |}.


(** The [userSettings] collection after the three store operations of
    [/api/notifications/email]. *)
Definition setEmail_settings (user : User) (addr : string)
    (l : list UserSetting) : list UserSetting :=
  let cleaned := Mongo.deleteMany (stale user addr) l in
  let under_sub :=
    Mongo.upsert (sub user) (set_notificationEmail addr) cleaned in
  if has_work_email user
  then Mongo.upsert (default "" (email user)) (set_notificationEmail addr) under_sub
  else under_sub.

(** *** Over the runs of the interleaved server *)











(** ** Scenarios *)

Module Scenario.

Definition at_time (t : Z) : nat → Env :=
  always {| now := t; dbOk := true; mailOk := true |}.

Definition alice : User := {| sub := "sub-alice"; email := Some "alice@example.com" |}.
Definition bob : User := {| sub := "sub-bob"; email := Some "bob@example.com" |}.

Definition post (payload : string) : HttpRequest :=
  {| method := "POST"; headers := [("content-type", "application/json")];
     body := payload; query := []; protocol := "http";
     host := "localhost:3000" |}.

Definition fresh : Server := server (started true None).

(** alice registers the endpoint ["E"]. *)
Definition registered : Server :=
  handle (at_time 1)
    (POST_new 0 (Authenticated alice) "http" "localhost:3000" (Some "Test Webhook") "E")
    fresh.

(** Two requests arrive on ["E"], at times 2 and 3. *)
Definition two_requests : Server :=
  handle (at_time 3) (ALL_webhook 2 "E" (post "second"))
    (handle (at_time 2) (ALL_webhook 1 "E" (post "first")) registered).

Definition mail_down (t : Z) : nat → Env :=
  always {| now := t; dbOk := true; mailOk := false |}.

(** alice turns notifications on, to her work address. *)
Definition subscribed : Server :=
  handle (at_time 4) (POST_enable 3 (Authenticated alice) (Some "alice@work.com"))
    two_requests.


Definition notice : NotifyArgs :=
  {| creatorEmail := "alice@example.com"; n_endpointId := "E";
     requestData := captured "E" (post "third") 6%Z; n_req := Some (post "third") |}.






End Scenario.

(** ** The rest of the server *)

(** *** Token verification: [authenticateGoogleToken] and [/auth/google] *)

(** What [googleClient.verifyIdToken] does with a token: it resolves to a
    ticket whose payload is the user, or it throws an error with a
    message.  The verifier itself is outside the repository and is a
    parameter of the functions below. *)
Inductive Verification :=
| Verified (payload : User)
| Throws (message : string).

Module JsString.

(** [s.split(sep)] for a one-character separator: the pieces between the
    separators, empty pieces included; the empty string gives one empty
    piece. *)
Fixpoint split (sep : Ascii.ascii) (s : string) : list string :=
  match s with
  | EmptyString => [EmptyString]
  | String c s' =>
      if Ascii.eqb c sep then EmptyString :: split sep s'
      else match split sep s' with
           | w :: ws => String c w :: ws
           | [] => [String c EmptyString]
           end
  end.

(** The character does not occur in the string. *)
Fixpoint free_of (sep : Ascii.ascii) (s : string) : bool :=
  match s with
  | EmptyString => true
  | String c s' => negb (Ascii.eqb c sep) && free_of sep s'
  end.

End JsString.

Definition space : Ascii.ascii := Ascii.ascii_of_nat 32.

(** The middleware of the protected routes: what it leaves in [req.user],
    or the text of its 401. *)
Definition authenticateGoogleToken (verifyIdToken : string → Verification)
    (req : HttpRequest) : AuthResult :=
  match header "authorization" (headers req) with
  | None => Rejected "Unauthorized: No token provided"
  | Some authHeader =>
      if String.eqb authHeader ""
      then Rejected "Unauthorized: No token provided"
      else
        match JsString.split space authHeader !! 1 with
        | None => Rejected "Unauthorized: Invalid token format"
        | Some token =>
            if String.eqb token ""
            then Rejected "Unauthorized: Invalid token format"
            else
              match verifyIdToken token with
              | Verified payload => Authenticated payload
              | Throws message =>
                  if Js.includes message "Token used too late"
                     || Js.includes message "Token used too early"
                  then Rejected "Unauthorized: Token expired. Please sign in again."
                  else Rejected "Unauthorized: Invalid token"
              end
        end
  end.

(** What the middleware makes of the verifier's verdict. *)
Definition verdict (v : Verification) : AuthResult :=
  match v with
  | Verified payload => Authenticated payload
  | Throws message =>
      if Js.includes message "Token used too late"
         || Js.includes message "Token used too early"
      then Rejected "Unauthorized: Token expired. Please sign in again."
      else Rejected "Unauthorized: Invalid token"
  end.

Inductive AuthGoogleResponse :=
| auth_user (user : User)
| auth_error (status : nat) (error : string).

(** [app.post('/auth/google')], on the [token] of the body. *)
Definition auth_google (verifyIdToken : string → Verification)
    (token : option string) : AuthGoogleResponse :=
  match token with
  | None => auth_error 400 "Token is required"
  | Some t =>
      if String.eqb t "" then auth_error 400 "Token is required"
      else
        match verifyIdToken t with
        | Verified payload => auth_user payload
        | Throws message =>
            if Js.includes message "Token used too late"
               || Js.includes message "Token used too early"
            then auth_error 401 "Token timing issue. Please try signing in again."
            else if Js.includes message "invalid_token"
                    || Js.includes message "Invalid token"
            then auth_error 401 "Invalid Google ID token"
            else auth_error 401 "Authentication failed. Please try again."
        end
  end.

(** *** The read-only routes *)

(** The answer of a protected route that only reads: its JSON body, the
    401 of the middleware, or the 500 of its [catch]. *)
Inductive Guarded (A : Type) :=
| answered (payload : A)
| unauthorized (message : string)
| failed (error : string).
Arguments answered {A} payload.
Arguments unauthorized {A} message.
Arguments failed {A} error.

(** An element of the array sent by [GET /endpoints]. *)
Record EndpointItem := {
  item_id : string;
  item_createdAt : Timestamp;
  item_createdBy : option string;
  item_name : option string
}.

(** The filter [{ createdBy: req.user.email }]. *)
Definition owned_by (owner : option string) (kv : string * Endpoint) : bool :=
  bool_decide (createdBy kv.2 = owner).

(** The sort [{ createdAt: -1 }]. *)
Definition created_later (a b : string * Endpoint) : Prop :=
  (createdAt b.2 ≤ createdAt a.2)%Z.

Global Instance created_later_dec : RelDecision created_later.
Proof. intros a b. unfold created_later. apply _. Defined.

Definition endpoint_item (kv : string * Endpoint) : EndpointItem :=
  {| item_id := kv.1;
     item_createdAt := createdAt kv.2;
     item_createdBy := Js.or_else (createdBy kv.2) None;
     item_name := Js.or_else (name kv.2) None |}.

(** [endpointsCollection.find({ createdBy }).sort({ createdAt: -1 })
      .project(..).toArray()], mapped to the items. *)
Definition endpoints_of (user : User) (d : Db) : list EndpointItem :=
  endpoint_item <$>
    merge_sort created_later
      (List.filter (owned_by (email user)) (map_to_list (endpointsCollection d))).

(** [app.get('/endpoints')] *)
Definition GET_endpoints (auth : AuthResult) (ok : bool) (d : Db)
    : Guarded (list EndpointItem) :=
  match auth with
  | Rejected message => unauthorized message
  | Authenticated user =>
      if ok then answered (endpoints_of user d)
      else failed "Internal Server Error"
  end.

(** The body of [GET /api/notifications/status]. *)
Record NotificationStatus := {
  enabled : bool;
  status_email : option string
}.

Definition notification_status (user : User) (d : Db) : NotificationStatus :=
  let settings := Mongo.findOne (by_userId (sub user)) (userSettings d) in
  {| enabled := match settings ≫= emailNotifications with
                | Some true => true
                | _ => false
                end;
     status_email := Js.or_else (settings ≫= notificationEmail) (email user) |}.

(** [app.get('/api/notifications/status')] *)
Definition GET_status (auth : AuthResult) (ok : bool) (d : Db)
    : Guarded NotificationStatus :=
  match auth with
  | Rejected message => unauthorized message
  | Authenticated user =>
      if ok then answered (notification_status user d)
      else failed "Failed to get notification status"
  end.

(** *** Vocabulary of the further properties *)

(** The [userSettings] collection after the store operations of
    [/api/notifications/enable] and [/api/notifications/disable]. *)
Definition both_keys (user : User) (set : UserSetting → UserSetting)
    (l : list UserSetting) : list UserSetting :=
  let under_sub := Mongo.upsert (sub user) set l in
  if has_work_email user
  then Mongo.upsert (default "" (email user)) set under_sub
  else under_sub.

(** At most one setting per identity key. *)
Definition keys_unique (l : list UserSetting) : Prop :=
  NoDup (userId <$> l).

(** No setting under a key of somebody else names [m] as its notification
    address. *)
Definition unshadowed (user : User) (m : string) (l : list UserSetting) : Prop :=
  ∀ u, u ∈ l → notificationEmail u = Some m →
       userId u = sub user ∨ userId u = m.



(** A protected request whose token was rejected. *)
Definition rejected (i : Incoming) (message : string) : Prop :=
  match i with
  | POST_new _ auth _ _ _ _ | DELETE_endpoint _ auth _
  | POST_enable _ auth _ | POST_disable _ auth | POST_email _ auth _ =>
      auth = Rejected message
  | _ => False
  end.

Definition connection (i : Incoming) : option nat :=
  match i with
  | POST_new conn _ _ _ _ _ | DELETE_endpoint conn _ _ | ALL_webhook conn _ _
  | POST_enable conn _ _ | POST_disable conn _ | POST_email conn _ _ => Some conn
  | ON_join _ _ => None
  end.

(** *** Further scenarios *)

Module Cases.

(** The store answers the look-up of the endpoint and fails the operation
    after it (the insert of the webhook handler, the query of the join
    handler). *)
Definition second_operation_fails (t : Z) : nat → Env :=
  λ k, {| now := t; dbOk := bool_decide (k ≠ 3); mailOk := true |}.

(** The store fails at the [n]-th transition only. *)
Definition fails_at (n : nat) (t : Z) : nat → Env :=
  λ k, {| now := t; dbOk := bool_decide (k ≠ n); mailOk := true |}.

(** The store is down. *)
Definition store_down (t : Z) : nat → Env :=
  always {| now := t; dbOk := false; mailOk := true |}.

Definition get (authorization : string) : HttpRequest :=
  {| method := "GET"; headers := [("authorization", authorization)];
     body := ""; query := []; protocol := "http"; host := "localhost:3000" |}.

(** A verifier that knows one token, alice's. *)
Definition knows_alice (token : string) : Verification :=
  if String.eqb token "good" then Verified Scenario.alice
  else Throws "Token used too late, 1730505600 > 1730502000".



End Cases.

(** The newest endpoint first. *)
Definition newest_item_first (items : list EndpointItem) : Prop :=
  StronglySorted (λ a b, (item_createdAt b ≤ item_createdAt a)%Z) items.

(** The document an upsert starts from when no setting has the key. *)
Definition blank (k : string) : UserSetting :=
  {| userId := k; emailNotifications := None; notificationEmail := None |}.

(** The setting that [sendWebhookNotification] settles on when no subject
    identifier is passed, as the webhook handler calls it. *)
Definition first_match (ownerKey : string) (l : list UserSetting)
    : option UserSetting :=
  match Mongo.findOne (by_notificationEmail ownerKey) l with
  | Some u => Some u
  | None => Mongo.findOne (by_userId ownerKey) l
  end.

(** The two keys of a principal. *)
Definition own_key (user : User) (m : string) (u : UserSetting) : Prop :=
  userId u = sub user ∨ userId u = m.

Definition at_sign : Ascii.ascii := Ascii.ascii_of_nat 64.

(** The body of [/api/notifications/email] that the handler refuses:
    no address, an empty one, or one without the character [@]. *)
Definition invalid_address (em : option string) : Prop :=
  match em with
  | None => True
  | Some addr => addr = "" ∨ JsString.free_of at_sign addr = true
  end.
(** * Properties *)

(** ** The catch-up query *)

Section recent_facts.
Import Mongo.

Global Instance newer_first_trans : Transitive newer_first.
Proof. unfold newer_first. intros x y z ??. lia. Qed.

Global Instance newer_first_total : Total newer_first.
Proof. unfold newer_first. intros x y. lia. Qed.

Lemma on_endpoint_spec id r : on_endpoint id r = true ↔ endpointId (data r) = id.
Proof. apply String.eqb_eq. Qed.


Lemma sort_timestamp_desc_sorted l : StronglySorted newer_first (sort_timestamp_desc l).
Proof. apply StronglySorted_merge_sort; apply _. Qed.

Lemma sort_timestamp_desc_perm l : sort_timestamp_desc l ≡ₚ l.
Proof. apply merge_sort_Permutation. Qed.

Lemma recent_split id l :
  recent id l ++ drop 100 (sort_timestamp_desc (List.filter (on_endpoint id) l))
  = sort_timestamp_desc (List.filter (on_endpoint id) l).
Proof. apply take_drop. Qed.

Lemma recent_sorted id l : StronglySorted newer_first (recent id l).
Proof.
  pose proof (sort_timestamp_desc_sorted (List.filter (on_endpoint id) l)) as Hs.
  rewrite <- (recent_split id l) in Hs.
  by apply StronglySorted_app_1_l in Hs.
Qed.

Lemma recent_length id l :
  length (recent id l) = 100 `min` length (List.filter (on_endpoint id) l).
Proof.
  unfold recent. rewrite length_take.
  by rewrite (Permutation_length (sort_timestamp_desc_perm _)).
Qed.


(** The requests left out by [limit(100)] are at most as recent as every
    one that is kept. *)
Lemma recent_tail id l :
  ∃ rest,
    recent id l ++ rest ≡ₚ List.filter (on_endpoint id) l ∧
    ∀ q r, q ∈ recent id l → r ∈ rest → newer_first q r.
Proof.
  exists (drop 100 (sort_timestamp_desc (List.filter (on_endpoint id) l))).
  split.
  - rewrite recent_split. apply sort_timestamp_desc_perm.
  - intros q r Hq Hr.
    pose proof (sort_timestamp_desc_sorted (List.filter (on_endpoint id) l)) as Hs.
    rewrite <- (recent_split id l) in Hs.
    eapply StronglySorted_app_1_elem_of; eauto.
Qed.


End recent_facts.

(** ** Handlers run on their own *)


Lemma handle_join e s id σ ep :
  dbOk (e 1) = true → dbOk (e 3) = true →
  endpointsCollection (db σ) !! id = Some ep →
  handle e (ON_join s id) σ =
  let recentRequests := Mongo.recent id (requestsCollection (db σ)) in
  log (SocketEmit s (init_requests (format <$> recentRequests)))
    (log (SnapshotRead s id recentRequests) (socket_join s id σ)).
Proof.
  intros H1 H3 Hep. unfold handle. simpl. rewrite H1. simpl.
  rewrite Hep. simpl. by rewrite H3.
Qed.

Lemma handle_join_not_found e s id σ :
  dbOk (e 1) = true →
  endpointsCollection (db σ) !! id = None →
  handle e (ON_join s id) σ = log (SocketEmit s (error "Endpoint not found")) σ.
Proof.
  intros H1 Hep. unfold handle. simpl. rewrite H1. simpl. by rewrite Hep.
Qed.

Lemma handle_delete e conn user id σ :
  dbOk (e 1) = true → dbOk (e 2) = true →
  handle e (DELETE_endpoint conn (Authenticated user) id) σ =
  log (Respond conn (json 200 json_success))
    (log (DeletedRequests id)
       (with_db (λ d, set_requests
                   (Mongo.deleteMany (Mongo.on_endpoint id) (requestsCollection d))
                   (set_endpoints (delete id (endpointsCollection d)) d)) σ)).
Proof.
  intros H1 H2. unfold handle. simpl. rewrite H1. simpl. by rewrite H2.
Qed.

Lemma newest_first_format l :
  StronglySorted Mongo.newer_first l → newest_first (format <$> l).
Proof.
  induction 1 as [|r l Hl IH Hr]; simpl; constructor; [done|].
  rewrite Forall_fmap. eapply Forall_impl; [exact Hr|]. done.
Qed.

(** C1 (as amended): a successful join emits, in one [init_requests]
    event, the persisted requests of the endpoint as they are at that
    moment, cut to the 100 most recent ones, ordered newest first (not
    oldest first). *)
Theorem C1_snapshot_newest_first e s id σ :
  dbOk (e 1) = true → dbOk (e 3) = true →
  is_Some (endpointsCollection (db σ) !! id) →
  let persisted := List.filter (Mongo.on_endpoint id) (requestsCollection (db σ)) in
  ∃ recentRequests,
    trace (handle e (ON_join s id) σ) =
      trace σ ++ [JoinedRoom s id; SnapshotRead s id recentRequests;
                  SocketEmit s (init_requests (format <$> recentRequests))] ∧
    length recentRequests = 100 `min` length persisted ∧
    newest_first (format <$> recentRequests) ∧
    ∃ older,
      recentRequests ++ older ≡ₚ persisted ∧
      ∀ q r, q ∈ recentRequests → r ∈ older →
             (timestamp (data r) ≤ timestamp (data q))%Z.
Proof.
  intros H1 H3 [ep Hep] persisted.
  exists (Mongo.recent id (requestsCollection (db σ))).
  rewrite (handle_join _ _ _ _ ep) by done. simpl.
  split; [by rewrite <- !app_assoc|].
  split; [apply recent_length|].
  split; [apply newest_first_format, recent_sorted|].
  apply recent_tail.
Qed.

(** C1 at work: on the endpoint ["E"] with its two requests. *)
Lemma C1_snapshot_newest_first_witness :
  ∃ recentRequests,
    trace (handle (Scenario.at_time 4) (ON_join 7 "E") Scenario.two_requests) =
      trace Scenario.two_requests ++
        [JoinedRoom 7 "E"; SnapshotRead 7 "E" recentRequests;
         SocketEmit 7 (init_requests (format <$> recentRequests))] ∧
    length recentRequests =
      100 `min` length (List.filter (Mongo.on_endpoint "E")
                          (requestsCollection (db Scenario.two_requests))) ∧
    newest_first (format <$> recentRequests) ∧
    ∃ older,
      recentRequests ++ older ≡ₚ
        List.filter (Mongo.on_endpoint "E")
          (requestsCollection (db Scenario.two_requests)) ∧
      ∀ q r, q ∈ recentRequests → r ∈ older →
             (timestamp (data r) ≤ timestamp (data q))%Z.
Proof.
  apply (C1_snapshot_newest_first (Scenario.at_time 4) 7 "E" Scenario.two_requests).
  - reflexivity.
  - reflexivity.
  - vm_compute. eexists. reflexivity.
Defined.

(** C1 (as stated) fails: with a request of time 2 and a later one of
    time 3 persisted, the snapshot sent on join lists the later one
    first. *)
Lemma C1_snapshot_not_oldest_first :
  ∃ fs,
    last (trace (handle (Scenario.at_time 4) (ON_join 7 "E") Scenario.two_requests))
      = Some (SocketEmit 7 (init_requests fs)) ∧
    f_timestamp <$> fs = [3%Z; 2%Z] ∧
    ¬ oldest_first fs.
Proof.
  eexists. split; [vm_compute; reflexivity|]. split; [reflexivity|].
  intros Hs. apply StronglySorted_inv in Hs as [_ Hall].
  apply Forall_cons in Hall as [Hle _]. simpl in Hle. lia.
Qed.

(** ** Ingestion *)

(** C4: a request for an identifier that [endpoints.findOne] does not
    find is answered 404, and nothing else happens: no record is
    appended, nothing is broadcast, nobody is notified. *)
Theorem C4_unknown_endpoint_not_found e conn id req σ :
  dbOk (e 1) = true →
  endpointsCollection (db σ) !! id = None →
  let σ' := handle e (ALL_webhook conn id req) σ in
  trace σ' = trace σ ++ [Respond conn (send 404 "Endpoint not found")] ∧
  requestsCollection (db σ') = requestsCollection (db σ) ∧
  db σ' = db σ ∧ rooms σ' = rooms σ.
Proof.
  intros H1 Hep. unfold handle. simpl. rewrite H1. simpl. by rewrite Hep.
Qed.

(** C4 at work: a request for an identifier that was never registered. *)
Lemma C4_unknown_endpoint_not_found_witness :
  let σ' := handle (Scenario.at_time 5) (ALL_webhook 9 "nowhere" (Scenario.post "x"))
              Scenario.two_requests in
  trace σ' = trace Scenario.two_requests ++
               [Respond 9 (send 404 "Endpoint not found")] ∧
  requestsCollection (db σ') = requestsCollection (db Scenario.two_requests) ∧
  db σ' = db Scenario.two_requests ∧ rooms σ' = rooms Scenario.two_requests.
Proof.
  apply (C4_unknown_endpoint_not_found (Scenario.at_time 5) 9 "nowhere"
           (Scenario.post "x") Scenario.two_requests).
  - reflexivity.
  - vm_compute. reflexivity.
Defined.

(** The notification never answers a request and never writes. *)
Lemma resume_notify e t σ :
  is_notify t = true →
  Forall (λ t', is_notify t' = true) (resume e t σ).2 ∧
  db (resume e t σ).1 = db σ ∧
  rooms (resume e t σ).1 = rooms σ ∧
  ∃ added, trace (resume e t σ).1 = trace σ ++ added ∧
           Forall (λ x, is_SendMail x = true) added.
Proof.
  intros Ht.
  assert (∀ a us, Forall (λ t', is_notify t' = true) (notify_settled a us)) as Hs.
  { intros a [u|]; simpl; [|done]. repeat case_match; repeat constructor. }
  destruct t; try discriminate; simpl;
    repeat case_match; simpl;
    (split; [by (try apply Hs); repeat constructor|]);
    (split; [done|]); (split; [done|]);
    first [ by exists []; rewrite app_nil_r | by eexists [_]; repeat constructor ].
Qed.

Lemma run_cons n k e t ts σ :
  run (S n) k e (t :: ts) σ =
  run n (S k) e ((resume (e k) t σ).2 ++ ts) (resume (e k) t σ).1.
Proof. simpl. by destruct (resume (e k) t σ). Qed.

Lemma run_notify fuel k e ts σ :
  Forall (λ t, is_notify t = true) ts →
  db (run fuel k e ts σ) = db σ ∧
  rooms (run fuel k e ts σ) = rooms σ ∧
  ∃ added, trace (run fuel k e ts σ) = trace σ ++ added ∧
           Forall (λ x, is_SendMail x = true) added.
Proof.
  revert k ts σ. induction fuel as [|n IH]; intros k ts σ Hts; simpl.
  { repeat split; try done. exists []. by rewrite app_nil_r. }
  destruct ts as [|t ts'].
  { repeat split; try done. exists []. by rewrite app_nil_r. }
  apply Forall_cons in Hts as [Ht Hts'].
  destruct (resume_notify (e k) t σ Ht) as (Hnew & Hdb & Hrooms & added & Htr & Hadd).
  destruct (resume (e k) t σ) as [σ' new]. simpl in *.
  destruct (IH (S k) (new ++ ts') σ') as (Hdb' & Hrooms' & added' & Htr' & Hadd').
  { by apply Forall_app. }
  rewrite Hdb', Hrooms', Htr', Htr. repeat split; try done.
  exists (added ++ added'). rewrite app_assoc. split; [done|by apply Forall_app].
Qed.





(** In that run the transport did fail, and the caller was answered 200. *)
Example mail_failure_is_swallowed :
  let σ' := handle (Scenario.mail_down 5) (ALL_webhook 4 "E" (Scenario.post "third"))
              Scenario.subscribed in
  (∃ m, last (trace σ') = Some (SendMail m false) ∧ to m = "alice@work.com") ∧
  responses (drop (length (trace Scenario.subscribed)) (trace σ')) =
    [(4, send 200 "Received")].
Proof. split; [eexists; split|]; vm_compute; reflexivity. Qed.

(** ** Deleting an endpoint *)

Lemma elem_of_deleteMany {A} (P : A → bool) (l : list A) x :
  x ∈ Mongo.deleteMany P l ↔ x ∈ l ∧ P x = false.
Proof.
  unfold Mongo.deleteMany.
  rewrite !list_elem_of_In, filter_In, negb_true_iff. done.
Qed.

(** C8: the delete removes the endpoint and every request logged against
    it (and no other request); a join to that identifier afterwards is
    answered with the error event and the socket enters no room. *)
Theorem C8_delete_cascades e e' conn user s id σ :
  dbOk (e 1) = true → dbOk (e 2) = true → dbOk (e' 1) = true →
  let σ1 := handle e (DELETE_endpoint conn (Authenticated user) id) σ in
  let σ2 := handle e' (ON_join s id) σ1 in
  endpointsCollection (db σ1) !! id = None ∧
  (∀ r, r ∈ requestsCollection (db σ1) ↔
        r ∈ requestsCollection (db σ) ∧ endpointId (data r) ≠ id) ∧
  trace σ2 = trace σ1 ++ [SocketEmit s (error "Endpoint not found")] ∧
  rooms σ2 = rooms σ1 ∧ rooms σ1 = rooms σ.
Proof.
  intros H1 H2 H1' σ1 σ2.
  assert (endpointsCollection (db σ1) !! id = None) as Hgone.
  { subst σ1. rewrite handle_delete by done. simpl. apply lookup_delete_eq. }
  split; [done|]. split.
  - intros r. subst σ1. rewrite handle_delete by done. simpl.
    rewrite elem_of_deleteMany.
    rewrite <- (on_endpoint_spec id r).
    destruct (Mongo.on_endpoint id r); split; intros [? ?];
      (split; [done|]); congruence.
  - subst σ2. rewrite handle_join_not_found by done. simpl.
    subst σ1. rewrite handle_delete by done. done.
Qed.

(** C8 at work: alice deletes ["E"], then socket 7 tries to join it. *)
Lemma C8_delete_cascades_witness :
  let σ := Scenario.two_requests in
  let σ1 := handle (Scenario.at_time 5)
              (DELETE_endpoint 3 (Authenticated Scenario.alice) "E") σ in
  let σ2 := handle (Scenario.at_time 6) (ON_join 7 "E") σ1 in
  endpointsCollection (db σ1) !! "E" = None ∧
  (∀ r, r ∈ requestsCollection (db σ1) ↔
        r ∈ requestsCollection (db σ) ∧ endpointId (data r) ≠ "E") ∧
  trace σ2 = trace σ1 ++ [SocketEmit 7 (error "Endpoint not found")] ∧
  rooms σ2 = rooms σ1 ∧ rooms σ1 = rooms σ.
Proof.
  apply (C8_delete_cascades (Scenario.at_time 5) (Scenario.at_time 6) 3
           Scenario.alice 7 "E" Scenario.two_requests); reflexivity.
Defined.

(** C9 (as stated) fails: bob, who is authenticated but does not own
    alice's endpoint ["E"], deletes it together with its requests. *)
Lemma C9_non_owner_deletes :
  let σ := Scenario.two_requests in
  let σ' := handle (Scenario.at_time 5)
              (DELETE_endpoint 3 (Authenticated Scenario.bob) "E") σ in
  createdBy <$> endpointsCollection (db σ) !! "E" = Some (email Scenario.alice) ∧
  email Scenario.bob ≠ email Scenario.alice ∧
  length (requestsCollection (db σ)) = 2 ∧
  endpointsCollection (db σ') !! "E" = None ∧
  requestsCollection (db σ') = [].
Proof. vm_compute. repeat split; done. Qed.

(** C9 (as amended): the handler checks that the caller is authenticated
    and nothing more.  Every authenticated caller, owner or not, deletes
    the endpoint and its requests; a caller whose token is rejected gets
    401 and the store is left as it was. *)
Theorem C9_delete_by_any_authenticated e conn auth id σ :
  dbOk (e 1) = true → dbOk (e 2) = true →
  let σ' := handle e (DELETE_endpoint conn auth id) σ in
  match auth with
  | Authenticated user =>
      endpointsCollection (db σ') = delete id (endpointsCollection (db σ)) ∧
      requestsCollection (db σ') =
        Mongo.deleteMany (Mongo.on_endpoint id) (requestsCollection (db σ)) ∧
      trace σ' = trace σ ++ [DeletedRequests id; Respond conn (json 200 json_success)]
  | Rejected message =>
      db σ' = db σ ∧ trace σ' = trace σ ++ [Respond conn (send 401 message)]
  end.
Proof.
  intros H1 H2 σ'. destruct auth as [user|message].
  - subst σ'. rewrite handle_delete by done. simpl. by rewrite <- app_assoc.
  - done.
Qed.

(** C9 at work: bob deletes the endpoint of alice. *)
Lemma C9_delete_by_any_authenticated_witness :
  let σ := Scenario.two_requests in
  let σ' := handle (Scenario.at_time 5)
              (DELETE_endpoint 3 (Authenticated Scenario.bob) "E") σ in
  endpointsCollection (db σ') = delete "E" (endpointsCollection (db σ)) ∧
  requestsCollection (db σ') =
    Mongo.deleteMany (Mongo.on_endpoint "E") (requestsCollection (db σ)) ∧
  trace σ' = trace σ ++ [DeletedRequests "E"; Respond 3 (json 200 json_success)].
Proof.
  apply (C9_delete_by_any_authenticated (Scenario.at_time 5) 3
           (Authenticated Scenario.bob) "E" Scenario.two_requests); reflexivity.
Defined.

(** ** Notification routing *)

Lemma route_settled n k e a us σ :
  (∀ j, dbOk (e j) = true) →
  run (S (S n)) k e (notify_settled a us) σ =
  match us with
  | Some u =>
      match emailNotifications u with
      | Some true =>
          if transporter σ
          then log (SendMail
                      (mail σ a (Js.or_default (notificationEmail u) (creatorEmail a)))
                      (mailOk (e (S k)))) σ
          else σ
      | _ => σ
      end
  | None => σ
  end.
Proof.
  intros Hok. destruct us as [u|]; [|done]. unfold notify_settled.
  destruct (emailNotifications u) as [[]|]; try done.
  rewrite run_cons. cbn [resume]. rewrite Hok.
  destruct (transporter σ); [|by destruct n].
  cbn [fst snd app]. destruct n; done.
Qed.




(** ** Changing the notification address *)

Section upsert_facts.
Variables (k : string) (f : UserSetting → UserSetting).
Hypothesis f_userId : ∀ d, userId (f d) = userId d.

Lemma elem_of_upsert l u :
  u ∈ Mongo.upsert k f l → u ∈ l ∨ (userId u = k ∧ ∃ d, u = f d).
Proof.
  induction l as [|d l IH]; simpl.
  - intros ->%list_elem_of_singleton. right. rewrite f_userId. eauto.
  - destruct (String.eqb (userId d) k) eqn:Hd.
    + apply String.eqb_eq in Hd.
      intros [->|Hu]%elem_of_cons; [|left; apply elem_of_cons; by right].
      right. rewrite f_userId. eauto.
    + intros [->|Hu]%elem_of_cons; [left; apply elem_of_cons; by left|].
      destruct (IH Hu) as [?|?]; [left; apply elem_of_cons; by right|by right].
Qed.

Lemma elem_of_upsert_other l u :
  userId u ≠ k → u ∈ Mongo.upsert k f l ↔ u ∈ l.
Proof.
  intros Hu. induction l as [|d l IH]; simpl.
  - rewrite list_elem_of_singleton. split; [|by intros ?%elem_of_nil].
    intros ->. by rewrite f_userId in Hu.
  - destruct (String.eqb (userId d) k) eqn:Hd.
    + apply String.eqb_eq in Hd. rewrite !elem_of_cons.
      split; intros [->|?]; auto.
      * by rewrite f_userId in Hu.
      * done.
    + rewrite !elem_of_cons, IH. done.
Qed.

Lemma upsert_has_key l : ∃ u, u ∈ Mongo.upsert k f l ∧ userId u = k.
Proof.
  induction l as [|d l IH]; simpl.
  - eexists. split; [apply list_elem_of_singleton; reflexivity|].
    by rewrite f_userId.
  - destruct (String.eqb (userId d) k) eqn:Hd.
    + apply String.eqb_eq in Hd. exists (f d).
      split; [apply elem_of_cons; by left|]. by rewrite f_userId.
    + destruct IH as (u & Hu & Hk). exists u.
      split; [apply elem_of_cons; by right|done].
Qed.

End upsert_facts.

Lemma stale_spec user addr u :
  sub user ≠ "" →
  stale user addr u = false →
  userId u = sub user ∨ (Js.truthy (email user) = true ∧ Some (userId u) = email user) →
  notificationEmail u = Some addr.
Proof.
  intros Hsub Hst Hkey. unfold stale in Hst.
  apply andb_false_iff in Hst as [Hst|Hst].
  - exfalso. apply orb_false_iff in Hst as [Hs He].
    destruct Hkey as [Hk|[Ht Hk]].
    + rewrite Hk, String.eqb_refl, andb_true_r in Hs.
      apply negb_false_iff, String.eqb_eq in Hs. done.
    + rewrite Ht in He. simpl in He. by apply bool_decide_eq_false in He.
  - apply negb_false_iff, bool_decide_eq_true in Hst. done.
Qed.

Lemma stale_other user addr u :
  userId u ≠ sub user → Some (userId u) ≠ email user →
  stale user addr u = false.
Proof.
  intros Hs He. unfold stale.
  apply String.eqb_neq in Hs. rewrite Hs, andb_false_r.
  rewrite (bool_decide_eq_false_2 _ He), andb_false_r. done.
Qed.

Lemma handle_setEmail e conn user addr σ :
  dbOk (e 1) = true → dbOk (e 2) = true → dbOk (e 3) = true →
  addr ≠ "" → Js.includes addr "@" = true →
  handle e (POST_email conn (Authenticated user) (Some addr)) σ =
  log (Respond conn (json 200 (json_success_email addr)))
    (with_db (λ d, set_userSettings (setEmail_settings user addr (userSettings d)) d) σ).
Proof.
  intros H1 H2 H3 Haddr Hat. unfold handle. cbn [spawn].
  apply String.eqb_neq in Haddr. rewrite Haddr, Hat. cbn [negb andb].
  rewrite run_cons. cbn [resume]. rewrite H1. cbn [fst snd app].
  rewrite run_cons. cbn [resume]. rewrite H2. unfold setEmail_settings.
  destruct (has_work_email user); cbn [fst snd app].
  - rewrite run_cons. cbn [resume]. rewrite H3. done.
  - done.
Qed.

(** C7: after a new notification address was saved for a principal whose
    subject identifier and email are both known, every setting under
    either of the two keys carries the new address: the settings that
    carried another address under these keys are gone, a setting with the
    new address exists under each key, and the settings of other keys are
    as they were. *)
Theorem C7_setEmail_supersedes e conn user addr m σ :
  dbOk (e 1) = true → dbOk (e 2) = true → dbOk (e 3) = true →
  sub user ≠ "" → email user = Some m → m ≠ "" →
  addr ≠ "" → Js.includes addr "@" = true →
  let σ' := handle e (POST_email conn (Authenticated user) (Some addr)) σ in
  let own u := userId u = sub user ∨ userId u = m in
  (∀ u, u ∈ userSettings (db σ') → own u → notificationEmail u = Some addr) ∧
  (∀ u, u ∈ userSettings (db σ) → own u →
        notificationEmail u ≠ Some addr → u ∉ userSettings (db σ')) ∧
  (∃ u, u ∈ userSettings (db σ') ∧ userId u = sub user ∧
        notificationEmail u = Some addr) ∧
  (∃ u, u ∈ userSettings (db σ') ∧ userId u = m ∧
        notificationEmail u = Some addr) ∧
  (∀ u, ¬ own u → u ∈ userSettings (db σ') ↔ u ∈ userSettings (db σ)) ∧
  trace σ' = trace σ ++ [Respond conn (json 200 (json_success_email addr))].
Proof.
  intros H1 H2 H3 Hsub Hm Hm0 Haddr Hat σ' own.
  subst σ'. rewrite handle_setEmail by done. cbn [log with_db db userSettings trace
    set_userSettings].
  set (l := userSettings (db σ)).
  set (F := set_notificationEmail addr).
  assert (∀ d, userId (F d) = userId d) as HF by done.
  assert (Js.truthy (email user) = true) as Htruthy.
  { rewrite Hm. simpl. apply String.eqb_neq in Hm0. by rewrite Hm0. }
  set (l0 := Mongo.deleteMany (stale user addr) l).
  set (l1 := Mongo.upsert (sub user) F l0).
  assert (∀ u, u ∈ l0 → own u → notificationEmail u = Some addr) as Hown0.
  { intros u [Hu Hst]%elem_of_deleteMany Ho.
    apply (stale_spec user addr u Hsub Hst).
    destruct Ho as [?|Hk]; [by left|right]. split; [done|]. by rewrite Hk, Hm. }
  assert (∀ u, u ∈ l1 → own u → notificationEmail u = Some addr) as Hown1.
  { intros u [Hu|[_ [d ->]]]%(elem_of_upsert _ _ HF) Ho; [by apply Hown0|done]. }
  assert (∃ u, u ∈ l1 ∧ userId u = sub user) as (us & Hus & Hks).
  { apply upsert_has_key, HF. }
  assert (∀ u, ¬ own u → u ∈ l1 ↔ u ∈ l) as Hother1.
  { intros u Ho. unfold l1. rewrite elem_of_upsert_other; [|done|].
    - unfold l0. rewrite elem_of_deleteMany. split; [by intros [? _]|].
      intros Hu. split; [done|]. apply stale_other.
      + intros Hk. apply Ho. by left.
      + rewrite Hm. intros [= Hk]. apply Ho. by right.
    - intros Hk. apply Ho. by left. }
  assert (setEmail_settings user addr l =
          if has_work_email user then Mongo.upsert m F l1 else l1) as ->.
  { unfold setEmail_settings. by rewrite Hm. }
  assert (∀ u, u ∈ (if has_work_email user then Mongo.upsert m F l1 else l1) →
               own u → notificationEmail u = Some addr) as Hown2.
  { intros u Hu Ho. destruct (has_work_email user); [|by apply Hown1].
    apply (elem_of_upsert _ _ HF) in Hu as [Hu|[_ [d ->]]]; [by apply Hown1|done]. }
  split; [exact Hown2|].
  split.
  { intros u _ Ho Hne Hu. by apply Hne, Hown2. }
  assert (has_work_email user = negb (bool_decide (m = sub user))) as Hwork.
  { unfold has_work_email. rewrite Htruthy, Hm. simpl. f_equal.
    apply bool_decide_ext. split; [by intros [= ->]|by intros ->]. }
  split.
  { exists us. rewrite Hwork. destruct (bool_decide_reflect (m = sub user)) as [Heq|Hne]; simpl.
    - split; [done|]. split; [done|]. apply Hown1; [done|by left].
    - assert (us ∈ Mongo.upsert m F l1) as Hin.
      { apply elem_of_upsert_other; [done|congruence|done]. }
      split; [done|]. split; [done|].
      apply (elem_of_upsert _ _ HF) in Hin as [Hin|[_ [d ->]]]; [|done].
      apply Hown1; [done|by left]. }
  split.
  { rewrite Hwork. destruct (bool_decide_reflect (m = sub user)) as [Heq|Hne]; simpl.
    - exists us. split; [done|]. split; [congruence|]. apply Hown1; [done|by left].
    - destruct (upsert_has_key m F HF l1) as (um & Hum & Hkm).
      exists um. split; [done|]. split; [done|].
      apply (elem_of_upsert _ _ HF) in Hum as [Hin|[_ [d ->]]]; [|done].
      apply Hown1; [done|by right]. }
  split; [|done].
  intros u Ho. destruct (has_work_email user); [|by apply Hother1].
  rewrite elem_of_upsert_other; [by apply Hother1|done|].
  intros Hk. apply Ho. by right.
Qed.

(** C7 at work: alice moves her notifications from her work address to
    another one. *)
Lemma C7_setEmail_supersedes_witness :
  let user := Scenario.alice in
  let addr := "alice@home.com" in
  let m := "alice@example.com" in
  let σ := Scenario.subscribed in
  let σ' := handle (Scenario.at_time 6) (POST_email 5 (Authenticated user) (Some addr)) σ in
  let own u := userId u = sub user ∨ userId u = m in
  (∀ u, u ∈ userSettings (db σ') → own u → notificationEmail u = Some addr) ∧
  (∀ u, u ∈ userSettings (db σ) → own u →
        notificationEmail u ≠ Some addr → u ∉ userSettings (db σ')) ∧
  (∃ u, u ∈ userSettings (db σ') ∧ userId u = sub user ∧
        notificationEmail u = Some addr) ∧
  (∃ u, u ∈ userSettings (db σ') ∧ userId u = m ∧
        notificationEmail u = Some addr) ∧
  (∀ u, ¬ own u → u ∈ userSettings (db σ') ↔ u ∈ userSettings (db σ)) ∧
  trace σ' = trace σ ++ [Respond 5 (json 200 (json_success_email addr))].
Proof.
  apply (C7_setEmail_supersedes (Scenario.at_time 6) 5 Scenario.alice
           "alice@home.com" "alice@example.com" Scenario.subscribed);
    first [reflexivity | discriminate].
Defined.

(** The settings of alice before and after: both keys are re-created
    with the new address. *)
Example setEmail_rows :
  notificationEmail <$> userSettings (db Scenario.subscribed)
    = [Some "alice@work.com"; Some "alice@work.com"] ∧
  userSettings
    (db (handle (Scenario.at_time 6)
           (POST_email 5 (Authenticated Scenario.alice) (Some "alice@home.com"))
           Scenario.subscribed))
    = [ {| userId := "sub-alice"; emailNotifications := None;
           notificationEmail := Some "alice@home.com" |};
        {| userId := "alice@example.com"; emailNotifications := None;
           notificationEmail := Some "alice@home.com" |} ].
Proof. split; vm_compute; reflexivity. Qed.

(** ** The interleaved server *)





(** *** Lists and histories *)












(** *** The invariant is kept *)









Lemma room_socket_join s id σ s' id' :
  s' ∈ room (socket_join s id σ) id' ↔ s' ∈ room σ id' ∨ (s' = s ∧ id' = id).
Proof.
  unfold room, socket_join. simpl.
  destruct (decide (id = id')) as [->|Hne].
  - rewrite lookup_insert_eq. simpl. rewrite elem_of_union, elem_of_singleton.
    split; [intros [->|?]; auto|intros [?|[-> _]]; auto].
  - rewrite lookup_insert_ne by done.
    split; [auto|intros [?|[_ ?]]; [done|congruence]].
Qed.











(** ** The snapshot and the live stream *)




(** ** Identifiers and order *)





(** ** Isolation of the endpoints *)



(** * Further properties *)

(** ** Token verification *)

Lemma split_free sep w :
  JsString.free_of sep w = true → JsString.split sep w = [w].
Proof.
  induction w as [|c w IH]; simpl; [done|].
  intros [Hc Hw]%andb_true_iff. apply negb_true_iff in Hc. rewrite Hc.
  by rewrite IH.
Qed.

Lemma split_first sep w rest :
  JsString.free_of sep w = true →
  JsString.split sep (w +:+ String sep rest) = w :: JsString.split sep rest.
Proof.
  induction w as [|c w IH]; simpl.
  - intros _. by rewrite Ascii.eqb_refl.
  - intros [Hc Hw]%andb_true_iff. apply negb_true_iff in Hc. rewrite Hc.
    by rewrite IH.
Qed.

Lemma string_app_empty s : s +:+ "" = s.
Proof.
  induction s as [|c s IH]; [done|].
  change (String c (s +:+ "") = String c s). by rewrite IH.
Qed.

Lemma split_second sep scheme token tail :
  JsString.free_of sep scheme = true →
  JsString.free_of sep token = true →
  match tail with
  | EmptyString => True
  | String c _ => c = sep
  end →
  JsString.split sep (scheme +:+ String sep (token +:+ tail)) !! 1 = Some token.
Proof.
  intros Hs Ht Htail. rewrite split_first by done. simpl.
  destruct tail as [|c tail].
  - rewrite string_app_empty. by rewrite split_free.
  - subst c. by rewrite split_first.
Qed.


(** X1: the token the middleware verifies is the second space-separated
    word of the [Authorization] header, whatever the first word is and
    whatever follows a second space; the request is let through exactly
    when the verifier accepts that word, and a verifier error is answered
    401 with one of the two texts. *)
Theorem authenticate_second_word verifyIdToken req scheme token tail :
  header "authorization" (headers req)
    = Some (scheme +:+ String space (token +:+ tail)) →
  JsString.free_of space scheme = true →
  JsString.free_of space token = true →
  token ≠ "" →
  match tail with
  | EmptyString => True
  | String c _ => c = space
  end →
  authenticateGoogleToken verifyIdToken req = verdict (verifyIdToken token).
Proof.
  intros Hh Hs Ht Hne Htail. unfold authenticateGoogleToken. rewrite Hh.
  assert (String.eqb (scheme +:+ String space (token +:+ tail)) "" = false) as ->.
  { apply String.eqb_neq. by destruct scheme. }
  rewrite split_second by done.
  apply String.eqb_neq in Hne. rewrite Hne. unfold verdict.
  by destruct (verifyIdToken token).
Qed.

(** X1 at work: a bearer token. *)
Lemma authenticate_second_word_witness :
  authenticateGoogleToken Cases.knows_alice (Cases.get "Bearer good")
  = verdict (Cases.knows_alice "good").
Proof.
  apply (authenticate_second_word Cases.knows_alice (Cases.get "Bearer good")
           "Bearer" "good" "");
    first [reflexivity | discriminate | exact I].
Defined.

(** The same verifier turns down every other token; the middleware
    answers with the text for an expired token. *)
Example authenticate_expired :
  authenticateGoogleToken Cases.knows_alice (Cases.get "Bearer stale")
  = Rejected "Unauthorized: Token expired. Please sign in again.".
Proof. reflexivity. Qed.

(** X2: a request without [Authorization] header, or whose header is a
    single word (a bare token, say), is answered 401 without the verifier
    being asked. *)
Theorem authenticate_needs_two_words req :
  match header "authorization" (headers req) with
  | Some authHeader => JsString.free_of space authHeader = true
  | None => True
  end →
  ∃ message,
    (message = "Unauthorized: No token provided" ∨
     message = "Unauthorized: Invalid token format") ∧
    ∀ verifyIdToken, authenticateGoogleToken verifyIdToken req = Rejected message.
Proof.
  unfold authenticateGoogleToken.
  destruct (header "authorization" (headers req)) as [h|]; [|eauto].
  intros Hfree. destruct (String.eqb h "") eqn:Hh; [eauto|].
  rewrite split_free by done. simpl. eauto.
Qed.

(** X2 at work: alice's token, sent without the word [Bearer]. *)
Lemma authenticate_needs_two_words_witness :
  ∃ message,
    (message = "Unauthorized: No token provided" ∨
     message = "Unauthorized: Invalid token format") ∧
    ∀ verifyIdToken,
      authenticateGoogleToken verifyIdToken (Cases.get "good") = Rejected message.
Proof.
  apply (authenticate_needs_two_words (Cases.get "good")).
  reflexivity.
Defined.

(** X3: the sign-in route and the middleware agree: a token (without
    spaces) that [/auth/google] answers with a user is let through by the
    middleware as that user when sent as [Bearer <token>], and the other
    way round. *)
Theorem sign_in_agrees_with_middleware verifyIdToken req token user :
  header "authorization" (headers req) = Some ("Bearer " +:+ token) →
  JsString.free_of space token = true →
  token ≠ "" →
  auth_google verifyIdToken (Some token) = auth_user user ↔
  authenticateGoogleToken verifyIdToken req = Authenticated user.
Proof.
  intros Hh Ht Hne. unfold authenticateGoogleToken. rewrite Hh.
  pose proof (split_second space "Bearer" token "" eq_refl Ht I) as Hsplit.
  rewrite string_app_empty in Hsplit.
  change ("Bearer " +:+ token) with ("Bearer" +:+ String space token).
  assert (String.eqb ("Bearer" +:+ String space token) "" = false) as ->
    by reflexivity.
  rewrite Hsplit. unfold auth_google. apply String.eqb_neq in Hne. rewrite Hne. simpl.
  destruct (verifyIdToken token) as [p|m].
  - split; by intros [= ->].
  - split; intros H; repeat case_match; discriminate.
Qed.

(** X3 at work: alice signs in and then uses her token. *)
Lemma sign_in_agrees_with_middleware_witness :
  auth_google Cases.knows_alice (Some "good") = auth_user Scenario.alice ↔
  authenticateGoogleToken Cases.knows_alice (Cases.get "Bearer good")
    = Authenticated Scenario.alice.
Proof.
  apply (sign_in_agrees_with_middleware Cases.knows_alice (Cases.get "Bearer good")
           "good" Scenario.alice);
    first [reflexivity | discriminate].
Defined.

(** ** What failures and rejections leave behind *)

(** X4: a request to a protected route whose token was rejected is
    answered 401 with the text of the middleware and nothing else
    happens: store, rooms and the rest of the history stay as they
    were. *)
Theorem rejected_changes_nothing e i message σ :
  rejected i message →
  ∃ conn,
    connection i = Some conn ∧
    handle e i σ = log (Respond conn (send 401 message)) σ.
Proof.
  destruct i; simpl; try done; intros ->; eauto.
Qed.

(** X4 at work: a delete with a token the verifier turned down. *)
Lemma rejected_changes_nothing_witness :
  ∃ conn,
    connection (DELETE_endpoint 3 (Rejected "Unauthorized: Invalid token") "E")
      = Some conn ∧
    handle (Scenario.at_time 5)
      (DELETE_endpoint 3 (Rejected "Unauthorized: Invalid token") "E")
      Scenario.two_requests
    = log (Respond conn (send 401 "Unauthorized: Invalid token")) Scenario.two_requests.
Proof.
  apply (rejected_changes_nothing (Scenario.at_time 5)
           (DELETE_endpoint 3 (Rejected "Unauthorized: Invalid token") "E")
           "Unauthorized: Invalid token" Scenario.two_requests).
  reflexivity.
Defined.

(** The webhook handler on an existing endpoint, when the store works
    for it. *)
Lemma handle_webhook e conn id req σ ep :
  dbOk (e 1) = true →
  endpointsCollection (db σ) !! id = Some ep →
  dbOk (e 3) = true →
  let r := {| _id := nextObjectId (db σ); data := captured id req (now (e 2)) |} in
  db (handle e (ALL_webhook conn id req) σ) = insertOne_request (data r) (db σ) ∧
  rooms (handle e (ALL_webhook conn id req) σ) = rooms σ ∧
  ∃ mails,
    trace (handle e (ALL_webhook conn id req) σ) =
      trace σ ++ [Inserted r; RoomEmit id (room σ id) (new_request (format r));
                  Respond conn (acknowledge req (_id r))] ++ mails ∧
    Forall (λ x, is_SendMail x = true) mails.
Proof.
  intros H1 Hep H3 r. unfold handle. cbn [spawn].
  rewrite run_cons. cbn [resume]. rewrite H1. cbn [fst snd app].
  rewrite run_cons. cbn [resume]. rewrite Hep. cbn [fst snd app].
  rewrite run_cons. cbn [resume]. rewrite H3. cbn [fst snd app].
  rewrite run_cons. cbn [resume fst snd].
  match goal with
  | |- context [run ?f ?k e ?ts ?σ0] =>
      destruct (run_notify f k e ts σ0) as (Hdb & Hrooms & mails & Htr & Hmails)
  end.
  { repeat case_match; repeat constructor. }
  rewrite Hdb, Hrooms, Htr. simpl. split; [done|]. split; [done|].
  exists mails. split; [|done]. by rewrite <- !app_assoc.
Qed.

(** X5: when the store fails the webhook handler, at the look-up of the
    endpoint or at the insert, the caller gets 500 and nothing else
    happens: no record, no broadcast, no notification. *)
Theorem webhook_store_failure e conn id req σ :
  dbOk (e 1) = false ∨
  (dbOk (e 1) = true ∧ is_Some (endpointsCollection (db σ) !! id) ∧
   dbOk (e 3) = false) →
  handle e (ALL_webhook conn id req) σ =
  log (Respond conn (send 500 "Internal Server Error")) σ.
Proof.
  intros [H1|(H1 & [ep Hep] & H3)]; unfold handle; cbn [spawn].
  - rewrite run_cons. cbn [resume]. by rewrite H1.
  - rewrite run_cons. cbn [resume]. rewrite H1. cbn [fst snd app].
    rewrite run_cons. cbn [resume]. rewrite Hep. cbn [fst snd app].
    rewrite run_cons. cbn [resume]. by rewrite H3.
Qed.

(** X5 at work: the insert fails. *)
Lemma webhook_store_failure_witness :
  handle (Cases.second_operation_fails 5)
    (ALL_webhook 4 "E" (Scenario.post "lost")) Scenario.two_requests =
  log (Respond 4 (send 500 "Internal Server Error")) Scenario.two_requests.
Proof.
  apply (webhook_store_failure
           (Cases.second_operation_fails 5)
           4 "E" (Scenario.post "lost") Scenario.two_requests).
  right. split; [reflexivity|]. split; [|reflexivity].
  vm_compute. eexists. reflexivity.
Defined.

(** X6: a join whose snapshot query fails has already entered the room:
    the socket gets the error event and no snapshot, stays in the room,
    and a request ingested afterwards is broadcast to it.  (A join whose
    look-up of the endpoint fails does not enter the room.) *)
Theorem join_query_failure_stays_joined e s id σ :
  is_Some (endpointsCollection (db σ) !! id) →
  dbOk (e 1) = true → dbOk (e 3) = false →
  let σ1 := handle e (ON_join s id) σ in
  trace σ1 = trace σ ++ [JoinedRoom s id; SocketEmit s (error "Internal server error")] ∧
  db σ1 = db σ ∧
  s ∈ room σ1 id ∧
  ∀ e' conn req,
    dbOk (e' 1) = true → dbOk (e' 3) = true →
    ∃ r members,
      RoomEmit id members (new_request (format r))
        ∈ trace (handle e' (ALL_webhook conn id req) σ1) ∧
      s ∈ members ∧ data r = captured id req (now (e' 2)).
Proof.
  intros [ep Hep] H1 H3 σ1.
  assert (σ1 = log (SocketEmit s (error "Internal server error")) (socket_join s id σ))
    as Hσ1.
  { unfold σ1, handle. cbn [spawn].
    rewrite run_cons. cbn [resume]. rewrite H1. cbn [fst snd app].
    rewrite run_cons. cbn [resume]. rewrite Hep. cbn [fst snd app].
    rewrite run_cons. cbn [resume]. by rewrite H3. }
  assert (s ∈ room σ1 id) as Hroom.
  { rewrite Hσ1. change (s ∈ room (socket_join s id σ) id).
    apply room_socket_join. by right. }
  rewrite Hσ1 at 1 2. simpl. split; [by rewrite <- app_assoc|]. split; [done|].
  split; [done|].
  intros e' conn req H1' H3'.
  destruct (handle_webhook e' conn id req σ1 ep H1') as (_ & _ & mails & Htr & _);
    [by rewrite Hσ1|done|].
  eexists _, (room σ1 id). split; [|split; [done|]].
  - rewrite Htr. apply elem_of_app. right. apply list_elem_of_further, list_elem_of_here.
  - done.
Qed.

(** X6 at work: socket 7 joins ["E"] while the store fails its query. *)
Lemma join_query_failure_stays_joined_witness :
  let σ := Scenario.two_requests in
  let σ1 := handle (Cases.second_operation_fails 4) (ON_join 7 "E") σ in
  trace σ1 = trace σ ++ [JoinedRoom 7 "E"; SocketEmit 7 (error "Internal server error")] ∧
  db σ1 = db σ ∧
  7 ∈ room σ1 "E" ∧
  ∀ e' conn req,
    dbOk (e' 1) = true → dbOk (e' 3) = true →
    ∃ r members,
      RoomEmit "E" members (new_request (format r))
        ∈ trace (handle e' (ALL_webhook conn "E" req) σ1) ∧
      7 ∈ members ∧ data r = captured "E" req (now (e' 2)).
Proof.
  apply (join_query_failure_stays_joined (Cases.second_operation_fails 4)
           7 "E" Scenario.two_requests).
  - vm_compute. eexists. reflexivity.
  - reflexivity.
  - reflexivity.
Defined.

(** ** Registering and listing endpoints *)



(** The name is stored without the blanks around it. *)
Example registered_name_is_trimmed :
  name <$> endpointsCollection
             (db (handle (Scenario.at_time 5)
                    (POST_new 5 (Authenticated Scenario.alice) "https" "hooks.example"
                       (Some "  Billing ") "F") Scenario.two_requests)) !! "F"
  = Some (Some "Billing").
Proof. vm_compute. reflexivity. Qed.

Lemma NoDup_fst_filter {A B} (P : A * B → bool) (l : list (A * B)) :
  NoDup l.*1 → NoDup (List.filter P l).*1.
Proof.
  induction l as [|x l IH]; simpl; [done|].
  intros [Hx Hl]%NoDup_cons. destruct (P x); simpl; [|auto].
  apply NoDup_cons. split; [|auto].
  intros (y & Hy & Hin)%list_elem_of_fmap. apply Hx.
  apply list_elem_of_fmap. exists y. split; [done|].
  apply list_elem_of_In, filter_In in Hin as [Hin _]. by apply list_elem_of_In.
Qed.

Lemma elem_of_endpoints_of user d it :
  it ∈ endpoints_of user d ↔
  ∃ id ep, endpointsCollection d !! id = Some ep ∧
           createdBy ep = email user ∧ it = endpoint_item (id, ep).
Proof.
  unfold endpoints_of. rewrite list_elem_of_fmap. split.
  - intros ([id ep] & -> & Hin). rewrite merge_sort_Permutation in Hin.
    apply list_elem_of_In, filter_In in Hin as [Hin Ho].
    apply list_elem_of_In, elem_of_map_to_list in Hin.
    apply bool_decide_eq_true in Ho. eauto.
  - intros (id & ep & Hep & Ho & ->). exists (id, ep). split; [done|].
    rewrite merge_sort_Permutation. apply list_elem_of_In, filter_In. split.
    + by apply list_elem_of_In, elem_of_map_to_list.
    + by apply bool_decide_eq_true.
Qed.

(** X8: the listing of a caller holds exactly the endpoints whose owner
    is the caller's email, each of them once, the newest first. *)
Theorem listing_is_the_callers user d :
  (∀ it, it ∈ endpoints_of user d ↔
         ∃ id ep, endpointsCollection d !! id = Some ep ∧
                  createdBy ep = email user ∧ it = endpoint_item (id, ep)) ∧
  NoDup (item_id <$> endpoints_of user d) ∧
  newest_item_first (endpoints_of user d).
Proof.
  split; [apply elem_of_endpoints_of|]. unfold endpoints_of. split.
  - rewrite <- list_fmap_compose.
    change (item_id ∘ endpoint_item) with (@fst string Endpoint).
    rewrite merge_sort_Permutation. apply NoDup_fst_filter, NoDup_fst_map_to_list.
  - apply (StronglySorted_fmap _ created_later); [done|].
    apply StronglySorted_merge_sort.
    + intros x y z. unfold created_later. lia.
    + intros x y. unfold created_later. lia.
Qed.

(** X9: once registered, an endpoint is in the listing of its creator
    and in the listing of nobody whose email is another one; once
    deleted, by whomever, it is in no listing. *)
Theorem listing_follows_registry e conn user req_protocol req_host nm id σ :
  dbOk (e 1) = true →
  endpointsCollection (db σ) !! id = None →
  let σ1 := handle e (POST_new conn (Authenticated user) req_protocol req_host nm id) σ in
  id ∈ item_id <$> endpoints_of user (db σ1) ∧
  (∀ other, email other ≠ email user →
            id ∉ item_id <$> endpoints_of other (db σ1)) ∧
  (∀ e' conn' caller anyone,
     dbOk (e' 1) = true → dbOk (e' 2) = true →
     id ∉ item_id <$>
            endpoints_of anyone
              (db (handle e' (DELETE_endpoint conn' (Authenticated caller) id) σ1))).
Proof.
  intros H1 Hfresh σ1.
  assert (∃ doc, createdBy doc = email user ∧
                 endpointsCollection (db σ1) !! id = Some doc) as (doc & Hby & Hdoc).
  { eexists. split; [|unfold σ1, handle; cbn [spawn];
      rewrite run_cons; cbn [resume]; rewrite H1, Hfresh; simpl;
      apply lookup_insert_eq]. done. }
  split; [|split].
  - apply list_elem_of_fmap. exists (endpoint_item (id, doc)). split; [done|].
    apply elem_of_endpoints_of. eauto.
  - intros other Hother (it & Hid & Hit)%list_elem_of_fmap.
    apply elem_of_endpoints_of in Hit as (id' & ep & Hep & Ho & ->).
    simpl in Hid. subst id'. rewrite Hdoc in Hep. injection Hep as <-. congruence.
  - intros e' conn' caller anyone H1' H2' (it & Hid & Hit)%list_elem_of_fmap.
    apply elem_of_endpoints_of in Hit as (id' & ep & Hep & Ho & ->).
    simpl in Hid. subst id'. rewrite handle_delete in Hep by done. simpl in Hep.
    by rewrite lookup_delete_eq in Hep.
Qed.

(** X9 at work: alice registers ["F"]; bob does not see it. *)
Lemma listing_follows_registry_witness :
  let σ1 := handle (Scenario.at_time 5)
              (POST_new 5 (Authenticated Scenario.alice) "https" "hooks.example"
                 None "F") Scenario.two_requests in
  "F" ∈ item_id <$> endpoints_of Scenario.alice (db σ1) ∧
  (∀ other, email other ≠ email Scenario.alice →
            "F" ∉ item_id <$> endpoints_of other (db σ1)) ∧
  (∀ e' conn' caller anyone,
     dbOk (e' 1) = true → dbOk (e' 2) = true →
     "F" ∉ item_id <$>
             endpoints_of anyone
               (db (handle e' (DELETE_endpoint conn' (Authenticated caller) "F") σ1))).
Proof.
  apply (listing_follows_registry (Scenario.at_time 5) 5 Scenario.alice
           "https" "hooks.example" None "F" Scenario.two_requests).
  - reflexivity.
  - vm_compute. reflexivity.
Defined.

(** alice's listing after that: the newer endpoint first. *)
Example listing_of_alice :
  item_id <$>
    endpoints_of Scenario.alice
      (db (handle (Scenario.at_time 5)
             (POST_new 5 (Authenticated Scenario.alice) "https" "hooks.example"
                None "F") Scenario.two_requests))
  = ["F"; "E"].
Proof. vm_compute. reflexivity. Qed.

(** ** Notification preferences *)

Section upsert_more.
Variables (k : string) (f : UserSetting → UserSetting).
Hypothesis f_userId : ∀ d, userId (f d) = userId d.

Lemma findOne_upsert_eq l :
  Mongo.findOne (by_userId k) (Mongo.upsert k f l)
  = Some (f (default (blank k) (Mongo.findOne (by_userId k) l))).
Proof.
  unfold Mongo.findOne, by_userId. induction l as [|d l IH]; simpl.
  - by rewrite f_userId, String.eqb_refl.
  - destruct (String.eqb (userId d) k) eqn:Hd; simpl.
    + by rewrite f_userId, Hd.
    + by rewrite Hd.
Qed.

Lemma findOne_upsert_ne k' l :
  k ≠ k' →
  Mongo.findOne (by_userId k') (Mongo.upsert k f l) = Mongo.findOne (by_userId k') l.
Proof.
  intros Hne. unfold Mongo.findOne, by_userId. induction l as [|d l IH]; simpl.
  - rewrite f_userId. simpl. apply String.eqb_neq in Hne. by rewrite Hne.
  - destruct (String.eqb (userId d) k) eqn:Hd; simpl.
    + rewrite f_userId. apply String.eqb_eq in Hd. rewrite Hd.
      apply String.eqb_neq in Hne. by rewrite Hne.
    + by rewrite IH.
Qed.

Lemma keys_upsert l :
  userId <$> Mongo.upsert k f l
  = if bool_decide (k ∈ userId <$> l) then userId <$> l else (userId <$> l) ++ [k].
Proof.
  induction l as [|d l IH]; cbn [Mongo.upsert].
  - rewrite bool_decide_eq_false_2 by apply not_elem_of_nil.
    rewrite fmap_cons. by rewrite f_userId.
  - rewrite (fmap_cons userId d l).
    destruct (String.eqb (userId d) k) eqn:Hd.
    + apply String.eqb_eq in Hd. rewrite fmap_cons, f_userId.
      rewrite bool_decide_eq_true_2; [done|]. rewrite Hd. apply list_elem_of_here.
    + apply String.eqb_neq in Hd. rewrite fmap_cons, IH.
      destruct (bool_decide_reflect (k ∈ userId <$> l)) as [Hin|Hout].
      * rewrite bool_decide_eq_true_2; [done|]. by apply list_elem_of_further.
      * rewrite bool_decide_eq_false_2; [done|].
        intros [?|?]%elem_of_cons; [by subst|done].
Qed.

Lemma keys_unique_upsert l : keys_unique l → keys_unique (Mongo.upsert k f l).
Proof.
  unfold keys_unique. rewrite keys_upsert. intros Hl.
  destruct (bool_decide_reflect (k ∈ userId <$> l)) as [Hin|Hout]; [done|].
  apply NoDup_app. split; [done|]. split; [|apply NoDup_singleton].
  intros x Hx ->%list_elem_of_singleton. done.
Qed.

(** With one setting per key, the setting under [k] after the upsert is
    the one that was written, from the setting that was there or from a
    blank one. *)
Lemma upsert_own l u :
  keys_unique l → u ∈ Mongo.upsert k f l → userId u = k →
  ∃ d, u = f d ∧ userId d = k ∧ (d ∈ l ∨ d = blank k).
Proof.
  unfold keys_unique. induction l as [|d l IH]; cbn [Mongo.upsert].
  - intros _ ->%list_elem_of_singleton _. exists (blank k). auto.
  - rewrite fmap_cons. intros [Hd Hl]%NoDup_cons.
    destruct (String.eqb (userId d) k) eqn:Hk.
    + apply String.eqb_eq in Hk. intros [->|Hu]%elem_of_cons Hku.
      * exists d. split; [done|]. split; [done|]. left. apply list_elem_of_here.
      * destruct Hd. rewrite Hk, <- Hku. apply list_elem_of_fmap. eauto.
    + apply String.eqb_neq in Hk. intros [->|Hu]%elem_of_cons Hku; [done|].
      destruct (IH Hl Hu Hku) as (d' & -> & Hk' & [Hin| ->]).
      * exists d'. split; [done|]. split; [done|]. left. by apply list_elem_of_further.
      * exists (blank k). auto.
Qed.

(** Without a setting under [k], the upsert writes a blank one. *)
Lemma upsert_fresh l u :
  (∀ d, d ∈ l → userId d ≠ k) →
  u ∈ Mongo.upsert k f l → userId u = k → u = f (blank k).
Proof.
  induction l as [|d l IH]; simpl.
  - by intros _ ->%list_elem_of_singleton _.
  - intros Hl. assert (userId d ≠ k) as Hd by (apply Hl, list_elem_of_here).
    apply String.eqb_neq in Hd. rewrite Hd.
    intros [->|Hu]%elem_of_cons Hku.
    + by apply String.eqb_neq in Hd.
    + apply IH; [|done..]. intros d' Hd'. by apply Hl, list_elem_of_further.
Qed.

End upsert_more.

Lemma keys_unique_deleteMany (P : UserSetting → bool) l :
  keys_unique l → keys_unique (Mongo.deleteMany P l).
Proof.
  unfold keys_unique, Mongo.deleteMany. induction l as [|d l IH]; simpl; [done|].
  intros [Hd Hl]%NoDup_cons. destruct (negb (P d)); simpl; [|auto].
  apply NoDup_cons. split; [|auto].
  intros (y & Hy & Hin)%list_elem_of_fmap. apply Hd.
  apply list_elem_of_fmap. exists y. split; [done|].
  apply list_elem_of_In, filter_In in Hin as [Hin _]. by apply list_elem_of_In.
Qed.

Lemma has_work_email_spec user :
  has_work_email user = true ↔
  ∃ m, email user = Some m ∧ m ≠ "" ∧ m ≠ sub user.
Proof.
  unfold has_work_email, Js.truthy. destruct (email user) as [m|]; simpl.
  - rewrite andb_true_iff, !negb_true_iff, bool_decide_eq_false, String.eqb_neq.
    split.
    + intros [? Hne]. exists m. split; [done|]. split; [done|]. congruence.
    + intros (m' & [= <-] & ? & ?). split; [done|]. congruence.
  - split; [done|]. by intros (m & ? & _).
Qed.

Lemma has_work_email_false user m :
  email user = Some m → m ≠ "" → has_work_email user = false → m = sub user.
Proof.
  intros Hm Hne Hw. destruct (decide (m = sub user)) as [|Hd]; [done|].
  assert (has_work_email user = true); [|congruence].
  apply has_work_email_spec. eauto.
Qed.

Lemma handle_enable e conn user em σ :
  dbOk (e 1) = true → dbOk (e 2) = true →
  handle e (POST_enable conn (Authenticated user) em) σ =
  log (Respond conn (json 200 json_success))
    (with_db (λ d, set_userSettings
                (both_keys user (set_enabled (Js.or_else em (email user)))
                   (userSettings d)) d) σ).
Proof.
  intros H1 H2. unfold handle. cbn [spawn].
  rewrite run_cons. cbn [resume]. rewrite H1. unfold both_keys.
  destruct (has_work_email user); cbn [fst snd app].
  - rewrite run_cons. cbn [resume]. rewrite H2. done.
  - done.
Qed.

Lemma handle_disable e conn user σ :
  dbOk (e 1) = true → dbOk (e 2) = true →
  handle e (POST_disable conn (Authenticated user)) σ =
  log (Respond conn (json 200 json_success))
    (with_db (λ d, set_userSettings
                (both_keys user set_disabled (userSettings d)) d) σ).
Proof.
  intros H1 H2. unfold handle. cbn [spawn].
  rewrite run_cons. cbn [resume]. rewrite H1. unfold both_keys.
  destruct (has_work_email user); cbn [fst snd app].
  - rewrite run_cons. cbn [resume]. rewrite H2. done.
  - done.
Qed.

Lemma findOne_sub_both_keys user f l :
  (∀ d, userId (f d) = userId d) →
  Mongo.findOne (by_userId (sub user)) (both_keys user f l)
  = Some (f (default (blank (sub user)) (Mongo.findOne (by_userId (sub user)) l))).
Proof.
  intros Hf. unfold both_keys. destruct (has_work_email user) eqn:Hw.
  - apply has_work_email_spec in Hw as (m & Hm & _ & Hne). rewrite Hm. simpl.
    rewrite findOne_upsert_ne by done. by apply findOne_upsert_eq.
  - by apply findOne_upsert_eq.
Qed.

Lemma or_else_idem a b : Js.or_else (Js.or_else a b) b = Js.or_else a b.
Proof. unfold Js.or_else. destruct (Js.truthy a) eqn:Ha; [by rewrite Ha|]. by case_match. Qed.

(** X10: what was switched on is what the status route reports: after
    [enable] the caller's status is enabled, with the address given in
    the request, or the caller's own email if none was given. *)
Theorem status_after_enable e conn user em σ :
  dbOk (e 1) = true → dbOk (e 2) = true →
  notification_status user
    (db (handle e (POST_enable conn (Authenticated user) em) σ))
  = {| enabled := true; status_email := Js.or_else em (email user) |}.
Proof.
  intros H1 H2. rewrite handle_enable by done. unfold notification_status. simpl.
  rewrite findOne_sub_both_keys by done. simpl. by rewrite or_else_idem.
Qed.

(** X10 at work: alice switches notifications on without naming an
    address. *)
Lemma status_after_enable_witness :
  notification_status Scenario.alice
    (db (handle (Scenario.at_time 4) (POST_enable 3 (Authenticated Scenario.alice) None)
           Scenario.two_requests))
  = {| enabled := true; status_email := Js.or_else None (email Scenario.alice) |}.
Proof.
  apply (status_after_enable (Scenario.at_time 4) 3 Scenario.alice None
           Scenario.two_requests); reflexivity.
Defined.

(** X11: after [disable] the status is disabled and the address it
    reports is the one it reported before. *)
Theorem status_after_disable e conn user σ :
  dbOk (e 1) = true → dbOk (e 2) = true →
  notification_status user (db (handle e (POST_disable conn (Authenticated user)) σ))
  = {| enabled := false;
       status_email := status_email (notification_status user (db σ)) |}.
Proof.
  intros H1 H2. rewrite handle_disable by done. unfold notification_status. simpl.
  rewrite findOne_sub_both_keys by done. simpl.
  by destruct (Mongo.findOne (by_userId (sub user)) (userSettings (db σ))).
Qed.

(** X11 at work: alice switches her notifications off again. *)
Lemma status_after_disable_witness :
  notification_status Scenario.alice
    (db (handle (Scenario.at_time 6) (POST_disable 5 (Authenticated Scenario.alice))
           Scenario.subscribed))
  = {| enabled := false;
       status_email := status_email
                         (notification_status Scenario.alice (db Scenario.subscribed)) |}.
Proof.
  apply (status_after_disable (Scenario.at_time 6) 5 Scenario.alice
           Scenario.subscribed); reflexivity.
Defined.

Lemma findOne_None {A} (P : A → bool) (l : list A) :
  (∀ x, x ∈ l → P x = false) → Mongo.findOne P l = None.
Proof.
  intros Hl. unfold Mongo.findOne. destruct (List.find P l) as [x|] eqn:Hx; [|done].
  apply find_some in Hx as [Hin HP]. apply list_elem_of_In in Hin.
  by rewrite (Hl x Hin) in HP.
Qed.

Lemma findOne_Some {A} (P : A → bool) (l : list A) x :
  Mongo.findOne P l = Some x → x ∈ l ∧ P x = true.
Proof.
  intros [Hin HP]%find_some. split; [by apply list_elem_of_In|done].
Qed.

(** X12: saving a notification address that differs from the one stored
    under the caller's subject identifier switches the notifications off:
    the setting is deleted and written anew with the address only, and
    the status route then reports the new address, disabled. *)
Theorem status_after_setEmail e conn user addr σ :
  dbOk (e 1) = true → dbOk (e 2) = true → dbOk (e 3) = true →
  addr ≠ "" → Js.includes addr "@" = true →
  sub user ≠ "" →
  (∀ u, u ∈ userSettings (db σ) → userId u = sub user →
        notificationEmail u ≠ Some addr) →
  notification_status user
    (db (handle e (POST_email conn (Authenticated user) (Some addr)) σ))
  = {| enabled := false; status_email := Some addr |}.
Proof.
  intros H1 H2 H3 Haddr Hat Hsub Hchanged. rewrite handle_setEmail by done.
  unfold notification_status. simpl.
  change (setEmail_settings user addr (userSettings (db σ)))
    with (both_keys user (set_notificationEmail addr)
            (Mongo.deleteMany (stale user addr) (userSettings (db σ)))).
  rewrite findOne_sub_both_keys by done.
  rewrite findOne_None.
  - simpl. unfold Js.or_else, Js.truthy.
    apply String.eqb_neq in Haddr. by rewrite Haddr.
  - intros u [Hu Hst]%elem_of_deleteMany. unfold by_userId.
    apply String.eqb_neq. intros Hk.
    apply (Hchanged u Hu Hk). apply (stale_spec user addr u Hsub Hst). by left.
Qed.

(** X12 at work: alice, subscribed with her work address, saves
    another address. *)
Lemma status_after_setEmail_witness :
  notification_status Scenario.alice
    (db (handle (Scenario.at_time 6)
           (POST_email 5 (Authenticated Scenario.alice) (Some "alice@home.com"))
           Scenario.subscribed))
  = {| enabled := false; status_email := Some "alice@home.com" |}.
Proof.
  apply (status_after_setEmail (Scenario.at_time 6) 5 Scenario.alice "alice@home.com"
           Scenario.subscribed); try reflexivity; try discriminate.
  intros u Hu Hk. vm_compute in Hu.
  apply elem_of_cons in Hu as [->|Hu]; [discriminate|].
  apply elem_of_cons in Hu as [->|Hu]; [discriminate|].
  by apply elem_of_nil in Hu.
Defined.

(** *** From the preferences to the mail *)

Lemma route_webhook e a σ :
  (∀ k, dbOk (e k) = true) →
  match first_match (creatorEmail a) (userSettings (db σ)) with
  | Some u =>
      match emailNotifications u with
      | Some true =>
          if transporter σ
          then ∃ delivered,
                 route e a None σ =
                 log (SendMail
                        (mail σ a (Js.or_default (notificationEmail u) (creatorEmail a)))
                        delivered) σ
          else route e a None σ = σ
      | _ => route e a None σ = σ
      end
  | None => route e a None σ = σ
  end.
Proof.
  intros Hok. unfold route, first_match, sendWebhookNotification.
  rewrite run_cons. cbn [resume]. rewrite Hok.
  destruct (Mongo.findOne (by_notificationEmail _) _) as [u|] eqn:Hu;
    cbn [fst snd]; rewrite app_nil_r.
  - rewrite (route_settled 2) by done.
    destruct (emailNotifications u) as [[]|]; try done.
    destruct (transporter σ); eauto.
  - rewrite run_cons. cbn [resume]. rewrite Hok. cbn [fst snd]. rewrite app_nil_r.
    rewrite (route_settled 1) by done.
    destruct (Mongo.findOne (by_userId _) _) as [u|]; [|done].
    destruct (emailNotifications u) as [[]|]; try done.
    destruct (transporter σ); eauto.
Qed.

Section both_keys_facts.
Variables (user : User) (m : string) (f : UserSetting → UserSetting).
Hypothesis f_userId : ∀ d, userId (f d) = userId d.
Hypothesis user_email : email user = Some m.
Hypothesis email_known : m ≠ "".

Lemma both_keys_elem l u :
  u ∈ both_keys user f l → u ∈ l ∨ own_key user m u.
Proof.
  unfold both_keys, own_key. rewrite user_email. simpl.
  destruct (has_work_email user).
  - intros [Hu|[? _]]%(elem_of_upsert _ _ f_userId); [|auto].
    apply (elem_of_upsert _ _ f_userId) in Hu as [?|[? _]]; auto.
  - intros [?|[? _]]%(elem_of_upsert _ _ f_userId); auto.
Qed.

Lemma both_keys_own l u :
  keys_unique l → u ∈ both_keys user f l → own_key user m u →
  ∃ d, u = f d ∧ own_key user m d ∧ (d ∈ l ∨ ∃ k, d = blank k).
Proof.
  unfold both_keys, own_key. rewrite user_email. simpl. intros Hl.
  destruct (has_work_email user) eqn:Hw.
  - apply has_work_email_spec in Hw as (m' & Hm' & _ & Hne).
    rewrite user_email in Hm'. injection Hm' as <-.
    intros Hu [Hk|Hk].
    + apply elem_of_upsert_other in Hu; [|done|congruence].
      destruct (upsert_own _ _ l u Hl Hu Hk) as (d & -> & Hd & Hd').
      exists d. split; [done|]. split; [auto|]. destruct Hd' as [?| ->]; eauto.
    + destruct (upsert_own _ _ _ u (keys_unique_upsert _ _ f_userId l Hl) Hu Hk)
        as (d & -> & Hd & Hd').
      exists d. split; [done|]. split; [auto|]. destruct Hd' as [Hin| ->]; [|eauto].
      left. apply elem_of_upsert_other in Hin; [done|done|congruence].
  - pose proof (has_work_email_false user m user_email email_known Hw) as ->.
    intros Hu Hk. assert (userId u = sub user) as Hk' by (by destruct Hk).
    destruct (upsert_own _ _ l u Hl Hu Hk') as (d & -> & Hd & Hd').
    exists d. split; [done|]. split; [auto|]. destruct Hd' as [?| ->]; eauto.
Qed.

Lemma findOne_email_both_keys l :
  is_Some (Mongo.findOne (by_userId m) (both_keys user f l)).
Proof.
  unfold both_keys. rewrite user_email. simpl.
  destruct (has_work_email user) eqn:Hw.
  - by rewrite findOne_upsert_eq.
  - pose proof (has_work_email_false user m user_email email_known Hw) as ->.
    by rewrite findOne_upsert_eq.
Qed.

(** With one setting per key and nobody else naming [m], the setting the
    notification settles on for the owner key [m] is one the preference
    handler has just written. *)
Lemma first_match_own l :
  keys_unique l → unshadowed user m l →
  ∃ d, first_match m (both_keys user f l) = Some (f d) ∧
       own_key user m d ∧ (d ∈ l ∨ ∃ k, d = blank k).
Proof.
  intros Hl Hsh. unfold first_match.
  destruct (Mongo.findOne (by_notificationEmail m) _) as [u|] eqn:Hu.
  - apply findOne_Some in Hu as [Hin Hn]. apply bool_decide_eq_true in Hn.
    assert (own_key user m u) as Hown.
    { destruct (both_keys_elem l u Hin) as [Hold|?]; [|done]. by apply Hsh. }
    destruct (both_keys_own l u Hl Hin Hown) as (d & -> & ?). eauto.
  - destruct (findOne_email_both_keys l) as [u Hu']. rewrite Hu'.
    apply findOne_Some in Hu' as [Hin Hk]. apply String.eqb_eq in Hk.
    destruct (both_keys_own l u Hl Hin) as (d & -> & ?); [by right|]. eauto.
Qed.

End both_keys_facts.

Lemma unshadowed_deleteMany user m P l :
  unshadowed user m l → unshadowed user m (Mongo.deleteMany P l).
Proof. intros Hl u [Hu _]%elem_of_deleteMany. by apply Hl. Qed.

(** X13: switching the notifications on makes the webhooks send mail to
    the chosen address.  With one setting per key, and nobody else's
    setting naming the owner's email as its notification address, the
    notification for an endpoint of the caller, after [enable], hands
    one mail to the transport, addressed to the address of the request
    (to the caller's email if none was given). *)
Theorem enabled_owner_is_notified e e' conn user em m a σ :
  dbOk (e 1) = true → dbOk (e 2) = true → (∀ k, dbOk (e' k) = true) →
  email user = Some m → m ≠ "" → creatorEmail a = m →
  keys_unique (userSettings (db σ)) →
  unshadowed user m (userSettings (db σ)) →
  transporter σ = true →
  let σ1 := handle e (POST_enable conn (Authenticated user) em) σ in
  ∃ address delivered,
    Js.or_else em (email user) = Some address ∧
    route e' a None σ1 = log (SendMail (mail σ1 a address) delivered) σ1.
Proof.
  intros H1 H2 Hok Hm Hm0 Ha Hkeys Hsh Htr σ1.
  assert (∃ address, Js.or_else em (email user) = Some address ∧ address ≠ "")
    as (address & Hnotif & Haddr).
  { rewrite Hm. unfold Js.or_else, Js.truthy. destruct em as [x|]; [|eauto].
    destruct (String.eqb x "") eqn:Hx; simpl; [eauto|].
    apply String.eqb_neq in Hx. eauto. }
  exists address.
  pose proof (route_webhook e' a σ1 Hok) as Hroute.
  assert (userSettings (db σ1)
          = both_keys user (set_enabled (Js.or_else em (email user)))
              (userSettings (db σ))) as Hl.
  { unfold σ1. by rewrite handle_enable. }
  assert (transporter σ1 = true) as Htr1.
  { unfold σ1. by rewrite handle_enable. }
  rewrite Hl, Ha, Htr1 in Hroute.
  destruct (first_match_own user m (set_enabled (Js.or_else em (email user)))
              (λ _, eq_refl) Hm Hm0 (userSettings (db σ)) Hkeys Hsh)
    as (d & Hfirst & _).
  rewrite Hfirst in Hroute. simpl in Hroute. rewrite Hnotif in Hroute.
  simpl in Hroute. apply String.eqb_neq in Haddr. rewrite Haddr in Hroute.
  destruct Hroute as [delivered Hroute]. eauto.
Qed.

(** X13 at work: alice switches the notifications on, to her work
    address; bob's settings are about himself only. *)
Lemma enabled_owner_is_notified_witness :
  let σ1 := handle (Scenario.at_time 4)
              (POST_enable 3 (Authenticated Scenario.alice) (Some "alice@work.com"))
              Scenario.two_requests in
  ∃ address delivered,
    Js.or_else (Some "alice@work.com") (email Scenario.alice) = Some address ∧
    route (Scenario.at_time 6) Scenario.notice None σ1
    = log (SendMail (mail σ1 Scenario.notice address) delivered) σ1.
Proof.
  apply (enabled_owner_is_notified (Scenario.at_time 4) (Scenario.at_time 6) 3
           Scenario.alice (Some "alice@work.com") "alice@example.com"
           Scenario.notice Scenario.two_requests);
    try reflexivity; try discriminate.
  - vm_compute. apply NoDup_nil_2.
  - intros u Hu. vm_compute in Hu. by apply elem_of_nil in Hu.
Defined.

(** X14: switching the notifications off stops the mail: under the same
    conditions, after [disable] the notification for an endpoint of the
    caller does nothing. *)
Theorem disabled_owner_is_not_notified e e' conn user m a σ :
  dbOk (e 1) = true → dbOk (e 2) = true → (∀ k, dbOk (e' k) = true) →
  email user = Some m → m ≠ "" → creatorEmail a = m →
  keys_unique (userSettings (db σ)) →
  unshadowed user m (userSettings (db σ)) →
  let σ1 := handle e (POST_disable conn (Authenticated user)) σ in
  route e' a None σ1 = σ1.
Proof.
  intros H1 H2 Hok Hm Hm0 Ha Hkeys Hsh σ1.
  pose proof (route_webhook e' a σ1 Hok) as Hroute.
  assert (userSettings (db σ1) = both_keys user set_disabled (userSettings (db σ)))
    as Hl.
  { unfold σ1. by rewrite handle_disable. }
  rewrite Hl, Ha in Hroute.
  destruct (first_match_own user m set_disabled (λ _, eq_refl) Hm Hm0
              (userSettings (db σ)) Hkeys Hsh) as (d & Hfirst & _).
  by rewrite Hfirst in Hroute.
Qed.

(** X14 at work: alice, subscribed, switches the notifications off. *)
Lemma disabled_owner_is_not_notified_witness :
  let σ1 := handle (Scenario.at_time 5) (POST_disable 4 (Authenticated Scenario.alice))
              Scenario.subscribed in
  route (Scenario.at_time 6) Scenario.notice None σ1 = σ1.
Proof.
  apply (disabled_owner_is_not_notified (Scenario.at_time 5) (Scenario.at_time 6) 4
           Scenario.alice "alice@example.com" Scenario.notice Scenario.subscribed);
    try reflexivity; try discriminate.
  - apply (bool_decide_unpack _). vm_compute. reflexivity.
  - intros u Hu Hn. vm_compute in Hu.
    apply elem_of_cons in Hu as [->|Hu]; [discriminate|].
    apply elem_of_cons in Hu as [->|Hu]; [discriminate|].
    by apply elem_of_nil in Hu.
Defined.

(** X15: saving another notification address stops the mail as well.
    When the settings under the caller's two keys carry another address
    than the new one, they are written anew without the flag, and the
    notification for an endpoint of the caller does nothing until the
    notifications are switched on again. *)
Theorem changed_address_is_not_notified e e' conn user addr m a σ :
  dbOk (e 1) = true → dbOk (e 2) = true → dbOk (e 3) = true →
  (∀ k, dbOk (e' k) = true) →
  addr ≠ "" → Js.includes addr "@" = true →
  sub user ≠ "" → email user = Some m → m ≠ "" → creatorEmail a = m →
  keys_unique (userSettings (db σ)) →
  unshadowed user m (userSettings (db σ)) →
  (∀ u, u ∈ userSettings (db σ) → own_key user m u →
        notificationEmail u ≠ Some addr) →
  let σ1 := handle e (POST_email conn (Authenticated user) (Some addr)) σ in
  route e' a None σ1 = σ1.
Proof.
  intros H1 H2 H3 Hok Haddr Hat Hsub Hm Hm0 Ha Hkeys Hsh Hchanged σ1.
  pose proof (route_webhook e' a σ1 Hok) as Hroute.
  assert (userSettings (db σ1)
          = both_keys user (set_notificationEmail addr)
              (Mongo.deleteMany (stale user addr) (userSettings (db σ)))) as Hl.
  { unfold σ1. by rewrite handle_setEmail. }
  rewrite Hl, Ha in Hroute.
  destruct (first_match_own user m (set_notificationEmail addr) (λ _, eq_refl) Hm Hm0
              (Mongo.deleteMany (stale user addr) (userSettings (db σ)))
              (keys_unique_deleteMany _ _ Hkeys)
              (unshadowed_deleteMany _ _ _ _ Hsh))
    as (d & Hfirst & Hown & [Hin|[k ->]]).
  - exfalso. apply elem_of_deleteMany in Hin as [Hin Hst].
    apply (Hchanged d Hin Hown). apply (stale_spec user addr d Hsub Hst).
    destruct Hown as [?|Hk]; [by left|right]. rewrite Hm, Hk. split; [|done].
    simpl. apply String.eqb_neq in Hm0. by rewrite Hm0.
  - by rewrite Hfirst in Hroute.
Qed.

(** X15 at work: alice, subscribed with her work address, saves
    another one. *)
Lemma changed_address_is_not_notified_witness :
  let σ1 := handle (Scenario.at_time 5)
              (POST_email 4 (Authenticated Scenario.alice) (Some "alice@home.com"))
              Scenario.subscribed in
  route (Scenario.at_time 6) Scenario.notice None σ1 = σ1.
Proof.
  apply (changed_address_is_not_notified (Scenario.at_time 5) (Scenario.at_time 6) 4
           Scenario.alice "alice@home.com" "alice@example.com" Scenario.notice
           Scenario.subscribed);
    try reflexivity; try discriminate.
  - apply (bool_decide_unpack _). vm_compute. reflexivity.
  - intros u Hu Hn. vm_compute in Hu.
    apply elem_of_cons in Hu as [->|Hu]; [discriminate|].
    apply elem_of_cons in Hu as [->|Hu]; [discriminate|].
    by apply elem_of_nil in Hu.
  - intros u Hu _. vm_compute in Hu.
    apply elem_of_cons in Hu as [->|Hu]; [discriminate|].
    apply elem_of_cons in Hu as [->|Hu]; [discriminate|].
    by apply elem_of_nil in Hu.
Defined.

(** *** One setting per key *)




(** *** Writing the same preference twice *)

Lemma upsert_fixed k f l d :
  Mongo.findOne (by_userId k) l = Some d → f d = d → Mongo.upsert k f l = l.
Proof.
  unfold Mongo.findOne, by_userId. induction l as [|x l IH]; simpl; [done|].
  destruct (String.eqb (userId x) k); [by intros [= ->] ->|].
  intros Hd Hf. by rewrite IH.
Qed.

Lemma both_keys_idem user f l :
  (∀ d, userId (f d) = userId d) → (∀ d, f (f d) = f d) →
  both_keys user f (both_keys user f l) = both_keys user f l.
Proof.
  intros Hf Hff. unfold both_keys. destruct (has_work_email user) eqn:Hw.
  - apply has_work_email_spec in Hw as (m & Hm & _ & Hne). rewrite Hm. simpl.
    set (l2 := Mongo.upsert m f (Mongo.upsert (sub user) f l)).
    assert (Mongo.upsert (sub user) f l2 = l2) as ->.
    { eapply upsert_fixed; [|apply Hff]. unfold l2.
      rewrite findOne_upsert_ne by done. by apply findOne_upsert_eq. }
    eapply upsert_fixed; [|apply Hff]. by apply findOne_upsert_eq.
  - eapply upsert_fixed; [|apply Hff]. by apply findOne_upsert_eq.
Qed.

Lemma deleteMany_none {A} (P : A → bool) (l : list A) :
  (∀ x, x ∈ l → P x = false) → Mongo.deleteMany P l = l.
Proof.
  unfold Mongo.deleteMany. induction l as [|x l IH]; simpl; [done|].
  intros Hl. rewrite (Hl x) by apply list_elem_of_here. simpl.
  rewrite IH; [done|]. intros y Hy. by apply Hl, list_elem_of_further.
Qed.

(** X17: the preference writes are idempotent: sending [enable],
    [disable] or a notification address a second time, with the same
    request, leaves the settings as the first time left them. *)
Theorem preference_writes_are_idempotent e e' conn conn' user σ :
  dbOk (e 1) = true → dbOk (e 2) = true → dbOk (e 3) = true →
  dbOk (e' 1) = true → dbOk (e' 2) = true → dbOk (e' 3) = true →
  (∀ em,
     let i c := POST_enable c (Authenticated user) em in
     db (handle e' (i conn') (handle e (i conn) σ)) = db (handle e (i conn) σ)) ∧
  (let i c := POST_disable c (Authenticated user) in
   db (handle e' (i conn') (handle e (i conn) σ)) = db (handle e (i conn) σ)) ∧
  (∀ addr,
     addr ≠ "" → Js.includes addr "@" = true →
     let i c := POST_email c (Authenticated user) (Some addr) in
     db (handle e' (i conn') (handle e (i conn) σ)) = db (handle e (i conn) σ)).
Proof.
  intros H1 H2 H3 H1' H2' H3'. split; [|split].
  - intros em i. unfold i. rewrite !handle_enable by done. simpl.
    unfold set_userSettings. simpl. by rewrite both_keys_idem.
  - intros i. unfold i. rewrite !handle_disable by done. simpl.
    unfold set_userSettings. simpl. by rewrite both_keys_idem.
  - intros addr Haddr Hat i. unfold i. rewrite !handle_setEmail by done. simpl.
    unfold set_userSettings. simpl. f_equal.
    change (setEmail_settings user addr) with
      (λ l, both_keys user (set_notificationEmail addr)
              (Mongo.deleteMany (stale user addr) l)).
    simpl. rewrite (deleteMany_none (stale user addr) (both_keys _ _ _)).
    + by apply both_keys_idem.
    + intros u Hu. unfold both_keys in Hu.
      assert (∀ l, (∀ x, x ∈ l → stale user addr x = false) →
                   ∀ k x, x ∈ Mongo.upsert k (set_notificationEmail addr) l →
                          stale user addr x = false) as Hup.
      { intros l Hl k x Hx.
        apply (elem_of_upsert k (set_notificationEmail addr) (λ _, eq_refl))
          in Hx as [Hx|[_ [d ->]]];
          [by apply Hl|].
        unfold stale. simpl.
        rewrite (bool_decide_eq_true_2 (Some addr = Some addr)) by done.
        apply andb_false_r. }
      assert (∀ x, x ∈ Mongo.deleteMany (stale user addr) (userSettings (db σ)) →
                   stale user addr x = false) as Hclean.
      { by intros x [_ ?]%elem_of_deleteMany. }
      destruct (has_work_email user); eauto.
Qed.

(** X17 at work: alice sends each of her preference requests twice. *)
Lemma preference_writes_are_idempotent_witness :
  let user := Scenario.alice in
  let σ := Scenario.subscribed in
  let e := Scenario.at_time 6 in
  let e' := Scenario.at_time 7 in
  (∀ em,
     let i c := POST_enable c (Authenticated user) em in
     db (handle e' (i 6) (handle e (i 5) σ)) = db (handle e (i 5) σ)) ∧
  (let i c := POST_disable c (Authenticated user) in
   db (handle e' (i 6) (handle e (i 5) σ)) = db (handle e (i 5) σ)) ∧
  (∀ addr,
     addr ≠ "" → Js.includes addr "@" = true →
     let i c := POST_email c (Authenticated user) (Some addr) in
     db (handle e' (i 6) (handle e (i 5) σ)) = db (handle e (i 5) σ)).
Proof.
  apply (preference_writes_are_idempotent (Scenario.at_time 6) (Scenario.at_time 7)
           5 6 Scenario.alice Scenario.subscribed); reflexivity.
Defined.

(** ** What the notification cannot do *)

Lemma run_nil n k e σ : run n k e [] σ = σ.
Proof. by destruct n. Qed.

Lemma run_settled_cases n k e a us σ :
  run n k e (notify_settled a us) σ = σ ∨
  ∃ m delivered,
    transporter σ = true ∧
    run n k e (notify_settled a us) σ = log (SendMail m delivered) σ.
Proof.
  destruct us as [u|]; simpl; [|left; apply run_nil].
  destruct (emailNotifications u) as [[]|]; try (left; apply run_nil).
  destruct n as [|n]; [by left|]. rewrite run_cons. cbn [resume].
  destruct (dbOk (e k)); cbn [fst snd app]; [|left; apply run_nil].
  destruct (transporter σ) eqn:Htr; cbn [fst snd app]; [|left; apply run_nil].
  destruct n as [|n]; [by left|]. rewrite run_cons. cbn [resume fst snd app].
  right. rewrite run_nil. eauto.
Qed.

(** X18: whatever fails, and whoever it is called for, the notification
    leaves the server as it was or hands exactly one mail to a configured
    transport; it never writes to the store, enters no room and answers
    no request.  When its first look-up fails it does nothing. *)
Theorem notification_is_harmless e a googleUserId σ :
  (route e a googleUserId σ = σ ∨
   ∃ m delivered,
     transporter σ = true ∧
     route e a googleUserId σ = log (SendMail m delivered) σ) ∧
  (dbOk (e 1) = false → route e a googleUserId σ = σ).
Proof.
  assert (∀ n k,
    run (S n) k e [Notify_byCreatorEmail a] σ = σ ∨
    ∃ m delivered,
      transporter σ = true ∧
      run (S n) k e [Notify_byCreatorEmail a] σ = log (SendMail m delivered) σ)
    as Hcreator.
  { intros n k. rewrite run_cons. cbn [resume].
    destruct (dbOk (e k)); cbn [fst snd]; [|left; apply run_nil].
    rewrite app_nil_r. apply run_settled_cases. }
  assert (∀ n k,
    run (S (S n)) k e [Notify_byNotificationEmail a] σ = σ ∨
    ∃ m delivered,
      transporter σ = true ∧
      run (S (S n)) k e [Notify_byNotificationEmail a] σ = log (SendMail m delivered) σ)
    as Hmail.
  { intros n k. rewrite run_cons. cbn [resume].
    destruct (dbOk (e k)); cbn [fst snd]; [|left; apply run_nil].
    destruct (Mongo.findOne _ _) as [u|]; cbn [fst snd].
    - rewrite app_nil_r. apply run_settled_cases.
    - apply Hcreator. }
  unfold route, sendWebhookNotification. split.
  - destruct googleUserId as [g|]; [|apply Hmail].
    destruct (String.eqb g ""); [apply Hmail|].
    rewrite run_cons. cbn [resume].
    destruct (dbOk (e 1)); cbn [fst snd]; [|left; apply run_nil].
    destruct (Mongo.findOne _ _) as [u|]; cbn [fst snd].
    + rewrite app_nil_r. apply run_settled_cases.
    + apply Hmail.
  - intros H1.
    destruct googleUserId as [g|]; [destruct (String.eqb g "")|];
      rewrite run_cons; cbn [resume]; by rewrite H1.
Qed.

(** X18 at work: the store is down when alice, who has notifications on,
    should be told of a request. *)
Lemma notification_is_harmless_witness :
  route (Cases.store_down 6) Scenario.notice (Some "sub-alice") Scenario.subscribed
  = Scenario.subscribed.
Proof.
  apply (notification_is_harmless (Cases.store_down 6) Scenario.notice
           (Some "sub-alice") Scenario.subscribed).
  reflexivity.
Defined.

(** ** Who gets a broadcast *)




(** ** Which addresses are accepted *)

Lemma includes_char c s :
  Js.includes s (String c EmptyString) = negb (JsString.free_of c s).
Proof.
  induction s as [|a s IH]; [done|].
  cbn [Js.includes JsString.free_of]. rewrite IH, negb_andb, negb_involutive.
  f_equal. cbn [String.prefix].
  destruct (Ascii.ascii_dec c a) as [->|Hne].
  - rewrite Ascii.eqb_refl. by destruct s.
  - apply Ascii.eqb_neq in Hne. rewrite Ascii.eqb_sym, Hne. done.
Qed.

(** X20: a notification address is refused exactly when it is missing,
    empty or without an [@]; the refusal is a 400 and changes nothing.
    Any other string is taken as an address. *)
Theorem invalid_address_is_refused e conn user em σ :
  (invalid_address em →
   handle e (POST_email conn (Authenticated user) em) σ
   = log (Respond conn (json 400 (json_error "Invalid email address"))) σ) ∧
  (¬ invalid_address em →
   ∃ addr, em = Some addr ∧
     (spawn (e 0) (POST_email conn (Authenticated user) em) σ).2
     = [SetEmail_deleteMany conn user addr]).
Proof.
  unfold invalid_address. destruct em as [addr|]; [|split; [done|tauto]].
  unfold handle. cbn [spawn].
  change "@" with (String at_sign EmptyString). rewrite includes_char.
  destruct (String.eqb addr "") eqn:Ha.
  - apply String.eqb_eq in Ha. split; [done|]. tauto.
  - apply String.eqb_neq in Ha. destruct (JsString.free_of at_sign addr).
    + split; [done|]. tauto.
    + split; [by intros [?|?]|]. intros _. eauto.
Qed.

(** X20 at work: alice sends an address without [@]. *)
Lemma invalid_address_is_refused_witness :
  handle (Scenario.at_time 7)
    (POST_email 9 (Authenticated Scenario.alice) (Some "alice.example.com"))
    Scenario.subscribed
  = log (Respond 9 (json 400 (json_error "Invalid email address")))
      Scenario.subscribed.
Proof.
  apply (invalid_address_is_refused (Scenario.at_time 7) 9 Scenario.alice
           (Some "alice.example.com") Scenario.subscribed).
  right. reflexivity.
Defined.

(** ** A delete that fails halfway *)

(** X21: the delete is not atomic.  When the store fails at the second of
    its two operations, the endpoint is gone, its requests are all still
    stored and the answer is a 500.  The same delete sent again, by
    anyone, once the store is back removes them. *)
Theorem delete_fails_halfway e e' conn conn' user user' id σ :
  dbOk (e 1) = true → dbOk (e 2) = false →
  dbOk (e' 1) = true → dbOk (e' 2) = true →
  let σ1 := handle e (DELETE_endpoint conn (Authenticated user) id) σ in
  let σ2 := handle e' (DELETE_endpoint conn' (Authenticated user') id) σ1 in
  endpointsCollection (db σ1) = delete id (endpointsCollection (db σ)) ∧
  requestsCollection (db σ1) = requestsCollection (db σ) ∧
  trace σ1 =
    trace σ ++ [Respond conn (json 500 (json_error "Failed to delete endpoint."))] ∧
  endpointsCollection (db σ2) = endpointsCollection (db σ1) ∧
  (∀ r, r ∈ requestsCollection (db σ2) ↔
        r ∈ requestsCollection (db σ) ∧ endpointId (data r) ≠ id).
Proof.
  intros H1 H2 H1' H2' σ1 σ2.
  assert (σ1 = log (Respond conn (json 500 (json_error "Failed to delete endpoint.")))
                 (with_db (λ d, set_endpoints (delete id (endpointsCollection d)) d) σ))
    as Hσ1.
  { unfold σ1, handle. cbn [spawn].
    rewrite run_cons. cbn [resume]. rewrite H1. cbn [fst snd app].
    rewrite run_cons. cbn [resume]. rewrite H2. done. }
  clearbody σ1.
  assert (endpointsCollection (db σ1) = delete id (endpointsCollection (db σ)))
    as Hep by (by rewrite Hσ1).
  assert (requestsCollection (db σ1) = requestsCollection (db σ))
    as Hreq by (by rewrite Hσ1).
  split; [done|]. split; [done|]. split; [by rewrite Hσ1|].
  subst σ2. rewrite handle_delete by done. simpl. split.
  - rewrite Hep. apply delete_id. apply lookup_delete_eq.
  - intros r. rewrite elem_of_deleteMany, Hreq.
    split; intros [Hr Hne]; (split; [done|]).
    + intros Heq%on_endpoint_spec. congruence.
    + destruct (Mongo.on_endpoint id r) eqn:Hon; [|done].
      by apply on_endpoint_spec in Hon.
Qed.

(** X21 at work: the store fails while alice's endpoint ["E"], with its
    two requests, is being deleted; bob sends the delete again. *)
Lemma delete_fails_halfway_witness :
  let σ1 := handle (Cases.fails_at 2 7)
              (DELETE_endpoint 5 (Authenticated Scenario.alice) "E")
              Scenario.two_requests in
  let σ2 := handle (Scenario.at_time 8)
              (DELETE_endpoint 6 (Authenticated Scenario.bob) "E") σ1 in
  endpointsCollection (db σ1)
    = delete "E" (endpointsCollection (db Scenario.two_requests)) ∧
  requestsCollection (db σ1) = requestsCollection (db Scenario.two_requests) ∧
  trace σ1 =
    trace Scenario.two_requests
      ++ [Respond 5 (json 500 (json_error "Failed to delete endpoint."))] ∧
  endpointsCollection (db σ2) = endpointsCollection (db σ1) ∧
  (∀ r, r ∈ requestsCollection (db σ2) ↔
        r ∈ requestsCollection (db Scenario.two_requests) ∧
        endpointId (data r) ≠ "E").
Proof.
  apply (delete_fails_halfway (Cases.fails_at 2 7) (Scenario.at_time 8) 5 6
           Scenario.alice Scenario.bob "E" Scenario.two_requests);
    reflexivity.
Defined.
